(** * Lobster core: response extraction and the artifact store

    A shallow embedding of [lobster/core/client.py] (class [AgentClient]) and
    [lobster/core/data_manager.py] (class [DataManager]), and the properties
    of the specification proved or refuted against it.

    Conventions of the embedding:
    - a Python [str] is a Rocq [string]; each character stands for the code
      point of the same number (the code points below 256), and the
      predicates [isspace] and [isalnum] are Python's on that range;
    - a Python [int] is a [Z];
    - a call that may raise returns an [outcome]: [Returns v] or [Raises e];
      [try_except] is the [try: ... except Exception as e: ...] statement;
    - clock readings, the engine's event stream and the outcome of file
      writes are inputs of the functions that consume them;
    - a Python object that callers keep a reference to and may mutate (the
      [parameters] dict of a tool-usage record) lives in a [heap] and is
      named by its location. *)

From stdpp Require Import base gmap list strings pretty.
From Stdlib Require Import ZArith QArith Ascii String.

Set Warnings "-register-all".

Open Scope string_scope.
Open Scope Z_scope.

(** ** Python primitives *)

Module Py.

(** Exceptions derived from [Exception]; [exn_message] is [str(e)]. *)
Record exn := Exception { exn_class : string; exn_message : string }.

Inductive outcome (A : Type) : Type :=
| Returns (a : A)
| Raises (e : exn).
Arguments Returns {A} a.
Arguments Raises {A} e.

Definition bind {A B} (m : outcome A) (k : A -> outcome B) : outcome B :=
  match m with
  | Returns a => k a
  | Raises e => Raises e
  end.

(** [try: body  except Exception as e: handler(e)] *)
Definition try_except {A} (body : outcome A) (handler : exn -> outcome A)
  : outcome A :=
  match body with
  | Returns a => Returns a
  | Raises e => handler e
  end.

Definition returns {A} (m : outcome A) : Prop := exists a, m = Returns a.

(** A loop over [l] whose body either leaves the function with a value
    ([Some v]), goes on to the next element ([None]), or raises. *)
Fixpoint first_some {A B} (body : A -> outcome (option B)) (l : list A)
  : outcome (option B) :=
  match l with
  | [] => Returns None
  | x :: rest =>
      match body x with
      | Returns (Some v) => Returns (Some v)
      | Returns None => first_some body rest
      | Raises e => Raises e
      end
  end.

(** [str.isspace] on one character: TAB, LF, VT, FF, CR, the separators
    FS, GS, RS, US, the space, NEL and the no-break space. *)
Definition isspace (c : ascii) : bool :=
  let n := N_of_ascii c in
  ((9 <=? n) && (n <=? 13) || (28 <=? n) && (n <=? 32)
   || (n =? 133) || (n =? 160))%N.

(** [str.isalnum] on one character: the ASCII digits and letters and the
    letters and numeric characters of the Latin-1 supplement. *)
Definition isalnum (c : ascii) : bool :=
  let n := N_of_ascii c in
  ((48 <=? n) && (n <=? 57) || (65 <=? n) && (n <=? 90)
   || (97 <=? n) && (n <=? 122)
   || (n =? 170) || (n =? 178) || (n =? 179) || (n =? 181)
   || (n =? 185) || (n =? 186) || (188 <=? n) && (n <=? 190)
   || (192 <=? n) && (n <=? 214) || (216 <=? n) && (n <=? 246)
   || (248 <=? n) && (n <=? 255))%N.

Fixpoint lstrip (s : string) : string :=
  match s with
  | EmptyString => EmptyString
  | String c s' => if isspace c then lstrip s' else s
  end.

Fixpoint rstrip (s : string) : string :=
  match s with
  | EmptyString => EmptyString
  | String c s' =>
      match rstrip s' with
      | EmptyString => if isspace c then EmptyString else String c EmptyString
      | r => String c r
      end
  end.

(** [s.strip()] *)
Definition strip (s : string) : string := rstrip (lstrip s).

(** Truth value of a [str]: the empty string is false. *)
Definition truthy (s : string) : bool :=
  match s with
  | EmptyString => false
  | String _ _ => true
  end.

(** [l[start:]]: a negative [start] counts from the end, and the bounds are
    clamped to the list. *)
Definition slice_from {A} (start : Z) (l : list A) : list A :=
  let len := Z.of_nat (List.length l) in
  let start' := if start <? 0 then Z.max 0 (start + len) else Z.min start len in
  drop (Z.to_nat start') l.

(** [l[:stop]] *)
Definition slice_to {A} (stop : Z) (l : list A) : list A :=
  let len := Z.of_nat (List.length l) in
  let stop' := if stop <? 0 then Z.max 0 (stop + len) else Z.min stop len in
  take (Z.to_nat stop') l.

(** The line feed and the multiplication sign of the source's literals. *)
Definition nl : string := String (ascii_of_N 10) EmptyString.
Definition times_sign : string := String (ascii_of_N 215) EmptyString.

(** [enumerate(l, start)] *)
Fixpoint enumerate {A} (start : Z) (l : list A) : list (Z * A) :=
  match l with
  | [] => []
  | x :: rest => (start, x) :: enumerate (start + 1) rest
  end.

Fixpoint string_filter (keep : ascii -> bool) (s : string) : string :=
  match s with
  | EmptyString => EmptyString
  | String c s' =>
      if keep c then String c (string_filter keep s') else string_filter keep s'
  end.

(** [s.replace(a, b)] for single characters *)
Fixpoint replace_char (a b : ascii) (s : string) : string :=
  match s with
  | EmptyString => EmptyString
  | String c s' =>
      String (if Ascii.eqb c a then b else c) (replace_char a b s')
  end.

End Py.

Import Py.

(** ** [data_manager.py]: the artifact store *)

Module DataManager.

(** *** Values, tables and figures *)

(** A Python value as the store sees it: a scalar, given by its kind and by
    the texts [str(v)] and [repr(v)], or a list or a tuple of values. *)
Inductive atom_kind := KStr | KInt | KFloat | KBool | KNone | KObject.

Inductive pyvalue :=
| Atom (kind : atom_kind) (str_text repr_text : string)
| PyList (items : list pyvalue)
| PyTuple (items : list pyvalue).

Fixpoint py_repr (v : pyvalue) : string :=
  match v with
  | Atom _ _ r => r
  | PyList items => "[" ++ String.concat ", " (List.map py_repr items) ++ "]"
  | PyTuple items =>
      match items with
      | [_] => "(" ++ String.concat ", " (List.map py_repr items) ++ ",)"
      | _ => "(" ++ String.concat ", " (List.map py_repr items) ++ ")"
      end
  end.

(** [str(v)] *)
Definition py_str (v : pyvalue) : string :=
  match v with
  | Atom _ s _ => s
  | _ => py_repr v
  end.

(** A [dict] with [str] keys, in insertion order. *)
Abbreviation dict := (list (string * pyvalue)) (only parsing).

Definition keys (d : dict) : list string := List.map fst d.

(** A dictionary that a caller holds a reference to is an object of the heap. *)
Abbreviation loc := positive (only parsing).
Abbreviation heap := (gmap positive dict) (only parsing).

(** [d[k] = v] on the dictionary at [l]: an existing key keeps its place. *)
Fixpoint dict_set (k : string) (v : pyvalue) (d : dict) : dict :=
  match d with
  | [] => [(k, v)]
  | (k', v') :: rest =>
      if String.eqb k k' then (k, v) :: rest else (k', v') :: dict_set k v rest
  end.

Definition heap_setitem (l : loc) (k : string) (v : pyvalue) (h : heap) : heap :=
  match h !! l with
  | Some d => <[l := dict_set k v d]> h
  | None => h
  end.

(** [dict(d)] or [d.copy()]: a new object with the same items. *)
Definition heap_copy (l : loc) (h : heap) : heap * loc :=
  let l' := fresh (dom h) in
  (<[l' := default [] (h !! l)]> h, l').

(** A cell of a table: a number, a missing value (NaN, None, NaT), or any
    other object, named by its text. *)
Inductive cell :=
| Num (x : Q)
| Missing
| Obj (text : string).

(** The dtype of a column: [object], a numeric dtype (int64, float64, bool),
    or another one (datetime64, category, string). *)
Inductive dtype := object | numeric | other.

Record column := {
  name : string;
  col_dtype : dtype;
  cells : list cell
}.

Record DataFrame := {
  index : list string;
  columns : list column
}.

Definition shape (df : DataFrame) : Z * Z :=
  (Z.of_nat (List.length (index df)), Z.of_nat (List.length (columns df))).

(** The argument [data] of [set_data]. *)
Inductive data_arg :=
| PyNone
| NotDataFrame
| Frame (df : DataFrame).

Inductive AnnData :=
| AnnDataOf (X : DataFrame) (uns : dict)
| DummyAnnData.

(** A plotly figure: its data and the title of its layout. *)
Record figure := {
  fig_data : string;
  layout_title : option string
}.

Inductive plot_arg :=
| Figure (f : figure)
| NotFigure.

Definition update_layout (title : string) (f : figure) : figure :=
  {| fig_data := fig_data f; layout_title := Some title |}.

(** *** What the libraries decide

    pandas, scanpy and plotly are not part of the repository.  The store
    depends on them through the functions below, which every theorem takes
    as they come. *)
Record libs := {
  (** the number an object converts to under [pd.to_numeric], if any *)
  parse_number : string -> option Q;
  (** whether [pd.to_numeric(column, errors='coerce')] raises *)
  to_numeric_raises : list cell -> bool;
  (** whether building the AnnData object raises *)
  anndata_raises : DataFrame -> dict -> bool;
  (** whether building the fallback AnnData object raises *)
  dummy_anndata_raises : bool;
  (** [memory_usage(deep=True).sum() / 1024**2], printed with the given
      number of decimals *)
  memory_mb : nat -> DataFrame -> string;
  (** whether [pio.write_html], [pio.write_image], [write_h5ad] raise *)
  write_html_raises : figure -> bool;
  write_image_raises : figure -> bool;
  write_h5ad_raises : AnnData -> bool
}.

(** *** The state of a [DataManager]

    The workspace paths, [file_paths] and [console] are left out: no
    operation below reads them. *)
Record plot_entry := {
  plot_id : string;
  plot_figure : figure;
  plot_title : string;
  plot_timestamp : string;
  plot_source : option string;
  plot_created_at : string
}.

Record tool_record := {
  tool : string;
  parameters : loc;
  description : option string;
  tool_timestamp : string
}.

Record t := {
  current_data : option DataFrame;
  current_metadata : dict;
  adata : option AnnData;
  latest_plots : list plot_entry;
  plot_counter : Z;
  processing_log : list string;
  tool_usage_history : list tool_record;
  max_plots_history : Z
}.

(** [__init__] *)
Definition init : t := {|
  current_data := None;
  current_metadata := [];
  adata := None;
  latest_plots := [];
  plot_counter := 0;
  processing_log := [];
  tool_usage_history := [];
  max_plots_history := 50
|}.

Definition with_data (d : option DataFrame) (m : dict) (a : option AnnData)
    (dm : t) : t :=
  {| current_data := d; current_metadata := m; adata := a;
     latest_plots := latest_plots dm; plot_counter := plot_counter dm;
     processing_log := processing_log dm;
     tool_usage_history := tool_usage_history dm;
     max_plots_history := max_plots_history dm |}.

Definition with_processing_log (log : list string) (dm : t) : t :=
  {| current_data := current_data dm; current_metadata := current_metadata dm;
     adata := adata dm; latest_plots := latest_plots dm;
     plot_counter := plot_counter dm; processing_log := log;
     tool_usage_history := tool_usage_history dm;
     max_plots_history := max_plots_history dm |}.

Definition with_plots (plots : list plot_entry) (counter : Z) (dm : t) : t :=
  {| current_data := current_data dm; current_metadata := current_metadata dm;
     adata := adata dm; latest_plots := plots; plot_counter := counter;
     processing_log := processing_log dm;
     tool_usage_history := tool_usage_history dm;
     max_plots_history := max_plots_history dm |}.

Definition with_tool_usage_history (hist : list tool_record) (dm : t) : t :=
  {| current_data := current_data dm; current_metadata := current_metadata dm;
     adata := adata dm; latest_plots := latest_plots dm;
     plot_counter := plot_counter dm; processing_log := processing_log dm;
     tool_usage_history := hist;
     max_plots_history := max_plots_history dm |}.

(** *** Data *)

Definition has_data (dm : t) : bool :=
  match current_data dm with
  | None => false
  | Some df => (0 <? fst (shape df)) && (0 <? snd (shape df))
  end.

(** [pd.to_numeric(column, errors='coerce')]: a number stays, an object
    becomes the number it converts to or a missing value. *)
Definition coerce_cell (lib : libs) (c : cell) : cell :=
  match c with
  | Obj text =>
      match parse_number lib text with
      | Some x => Num x
      | None => Missing
      end
  | _ => c
  end.

Definition to_numeric (lib : libs) (cs : list cell) : outcome (list cell) :=
  if to_numeric_raises lib cs
  then Raises (Exception "TypeError" "Invalid object type")
  else Returns (List.map (coerce_cell lib) cs).

(** The loop [for col in data.columns] of [set_data].  [data[col]] is a
    DataFrame when the label [col] occurs more than once, and a DataFrame
    has no [dtype]; the assignment of a column is inside [try ... except],
    which leaves the column as it is when the conversion raises. *)
Definition duplicated (label : string) (labels : list string) : bool :=
  (1 <? List.length (List.filter (String.eqb label) labels))%nat.

Fixpoint convert_columns (lib : libs) (labels : list string)
    (cols : list column) : outcome (list column) :=
  match cols with
  | [] => Returns []
  | c :: rest =>
      if duplicated (name c) labels then
        Raises (Exception "AttributeError"
                          "'DataFrame' object has no attribute 'dtype'")
      else
        let c' :=
          match col_dtype c with
          | object =>
              try_except
                (bind (to_numeric lib (cells c)) (fun cs =>
                   Returns {| name := name c; col_dtype := numeric;
                              cells := cs |}))
                (fun _ => Returns c)
          | _ => Returns c
          end in
        bind c' (fun c1 =>
        bind (convert_columns lib labels rest) (fun rest' =>
        Returns (c1 :: rest')))
  end.

Definition is_object (c : column) : bool :=
  match col_dtype c with
  | object => true
  | _ => false
  end.

(** [data.fillna(0)] *)
Definition fill_cell (c : cell) : cell :=
  match c with
  | Missing => Num 0%Q
  | _ => c
  end.

Definition fillna0 (df : DataFrame) : DataFrame :=
  {| index := index df;
     columns :=
       List.map (fun c => {| name := name c; col_dtype := col_dtype c;
                             cells := List.map fill_cell (cells c) |})
                (columns df) |}.

Definition is_scalar (v : pyvalue) : bool :=
  match v with
  | Atom (KStr | KInt | KFloat | KBool) _ _ => true
  | _ => false
  end.

(** [_create_anndata]: never raises; on failure the fallback object, or
    [None] when that fails too. *)
Definition _create_anndata (lib : libs) (dm : t) : t :=
  match current_data dm with
  | Some df =>
      if negb (has_data dm) then dm
      else if anndata_raises lib df (current_metadata dm) then
        with_data (current_data dm) (current_metadata dm)
          (if dummy_anndata_raises lib then None else Some DummyAnnData) dm
      else
        with_data (current_data dm) (current_metadata dm)
          (Some (AnnDataOf df
                   (List.filter (fun kv => is_scalar (snd kv))
                                (current_metadata dm)))) dm
  | None => dm
  end.

Definition ValueError (msg : string) : exn := Exception "ValueError" msg.

Definition data_loaded_line (data : DataFrame) : string :=
  "Data loaded: " ++ pretty (fst (shape data)) ++ " samples " ++ times_sign
  ++ " " ++ pretty (snd (shape data)) ++ " features".

(** The [try] block of [set_data]. *)
Definition set_data_body (lib : libs) (dm : t) (data : data_arg)
    (metadata : option dict) : outcome (t * DataFrame) :=
  match data with
  | PyNone | NotDataFrame =>
      Raises (ValueError "Data must be a pandas DataFrame.")
  | Frame df =>
      if (fst (shape df) =? 0) || (snd (shape df) =? 0) then
        Raises (ValueError "DataFrame is empty.")
      else
        bind (if existsb is_object (columns df)
              then convert_columns lib (List.map name (columns df)) (columns df)
              else Returns (columns df))
        (fun cols =>
           let data := fillna0 {| index := index df; columns := cols |} in
           let dm1 := with_data (Some data) (default [] metadata) (adata dm) dm in
           let dm2 := _create_anndata lib dm1 in
           let dm3 :=
             with_processing_log
               (processing_log dm2 ++ [data_loaded_line data])%list dm2 in
           Returns (dm3, data))
  end.

(** [set_data]: the handler empties the store and raises again. *)
Definition set_data (lib : libs) (dm : t) (data : data_arg)
    (metadata : option dict) : t * outcome DataFrame :=
  match set_data_body lib dm data metadata with
  | Returns (dm', stored) => (dm', Returns stored)
  | Raises e => (with_data None [] None dm, Raises e)
  end.

(** [get_data_summary].  The dtype histogram is left out. *)
Record summary := {
  status : string;
  summary_shape : Z * Z;
  summary_columns : list string;
  sample_names : list string;
  memory_usage : string;
  metadata_keys : list string;
  summary_processing_log : list string
}.

Inductive data_summary :=
| NoDataLoaded
| DataLoaded (s : summary).

Definition get_data_summary (lib : libs) (dm : t) : data_summary :=
  match current_data dm with
  | Some data =>
      if negb (has_data dm) then NoDataLoaded
      else DataLoaded {|
        status := "Data loaded";
        summary_shape := shape data;
        summary_columns := slice_to 10 (List.map name (columns data));
        sample_names := slice_to 5 (index data);
        memory_usage := memory_mb lib 1 data ++ " MB";
        metadata_keys := keys (current_metadata dm);
        summary_processing_log := slice_from (-5) (processing_log dm)
      |}
  | None => NoDataLoaded
  end.

(** *** Plots *)

(** [if title: plot.update_layout(title=title)] *)
Definition titled_figure (title : option string) (f : figure) : figure :=
  if truthy (default "" title) then update_layout (default "" title) f else f.

(** [add_plot]: the check of the argument raises inside [try], before the
    store is touched, and the handler returns [None]. *)
Definition add_plot (dm : t) (plot : plot_arg) (title source : option string)
    (timestamp created_at : string) : t * option string :=
  match plot with
  | NotFigure => (dm, None)
  | Figure f =>
      let titled := truthy (default "" title) in
      let f := titled_figure title f in
      let counter := plot_counter dm + 1 in
      let new_id := "plot_" ++ pretty counter in
      let entry := {|
        plot_id := new_id;
        plot_figure := f;
        plot_title := if titled then default "" title else "Untitled";
        plot_timestamp := timestamp;
        plot_source := source;
        plot_created_at := created_at
      |} in
      let plots := (latest_plots dm ++ [entry])%list in
      let plots :=
        if max_plots_history dm <? Z.of_nat (List.length plots)
        then drop 1 plots
        else plots in
      (with_plots plots counter dm, Some new_id)
  end.

Definition clear_plots (dm : t) : t := with_plots [] (plot_counter dm) dm.

Fixpoint find_plot (plot_id' : string) (plots : list plot_entry)
  : option figure :=
  match plots with
  | [] => None
  | plot_entry :: rest =>
      if String.eqb (plot_id plot_entry) plot_id'
      then Some (plot_figure plot_entry)
      else find_plot plot_id' rest
  end.

Definition get_plot_by_id (dm : t) (plot_id' : string) : option figure :=
  find_plot plot_id' (latest_plots dm).

Definition get_latest_plots (dm : t) (n : option Z) : list plot_entry :=
  match n with
  | None => latest_plots dm
  | Some n => slice_from (- n) (latest_plots dm)
  end.

Record plot_info := {
  info_id : string;
  info_title : string;
  info_timestamp : string;
  info_source : option string
}.

Definition get_plot_history (dm : t) : list plot_info :=
  List.map (fun p => {| info_id := plot_id p; info_title := plot_title p;
                        info_timestamp := plot_timestamp p;
                        info_source := plot_source p |})
           (latest_plots dm).

(** *** Tool usage *)

(** [parameters] is stored as it is passed: the record holds the location of
    the caller's dictionary. *)
Definition log_tool_usage (dm : t) (tool_name : string) (parameters' : loc)
    (description' : option string) (now : string) : t :=
  with_tool_usage_history
    (tool_usage_history dm ++
       [{| tool := tool_name; parameters := parameters';
           description := description'; tool_timestamp := now |}])%list dm.

(** What a reader of a stored record sees: its fields, and the items of the
    dictionary its [parameters] names. *)
Definition record_view (h : heap) (r : tool_record)
  : string * option dict * option string * string :=
  (tool r, h !! parameters r, description r, tool_timestamp r).

Definition param_str (param_value : pyvalue) : string :=
  match param_value with
  | PyList items | PyTuple items =>
      if (5 <? List.length items)%nat then
        "[" ++ String.concat ", " (List.map py_str (take 5 items))
            ++ "...] (length: " ++ pretty (List.length items) ++ ")"
      else py_str param_value
  | _ => py_str param_value
  end.

Definition render_param (item : string * pyvalue) : string :=
  "- " ++ fst item ++ ": " ++ param_str (snd item) ++ nl.

Definition render_tool_entry (h : heap) (numbered : Z * tool_record) : string :=
  let (i, entry) := numbered in
  "### " ++ pretty i ++ ". " ++ tool entry ++ " (" ++ tool_timestamp entry
         ++ ")" ++ nl ++ nl
  ++ (if truthy (default "" (description entry))
      then default "" (description entry) ++ nl ++ nl else "")
  ++ "**Parameters:**" ++ nl ++ nl
  ++ String.concat "" (List.map render_param (default [] (h !! parameters entry)))
  ++ nl.

Definition tool_usage_section (h : heap) (history : list tool_record) : string :=
  match history with
  | [] => ""
  | _ =>
      "## Tool Usage History" ++ nl ++ nl
      ++ String.concat "" (List.map (render_tool_entry h) (enumerate 1 history))
  end.

Definition data_section (lib : libs) (dm : t) : string :=
  match current_data dm with
  | Some data =>
      if has_data dm then
        "## Data Information" ++ nl ++ nl
        ++ "- Shape: " ++ pretty (fst (shape data)) ++ " rows " ++ times_sign
        ++ " " ++ pretty (snd (shape data)) ++ " columns" ++ nl
        ++ "- Memory usage: " ++ memory_mb lib 2 data ++ " MB" ++ nl
        ++ match current_metadata dm with
           | [] => ""
           | metadata =>
               "- Metadata keys: "
               ++ String.concat ", " (slice_to 5 (keys metadata)) ++ nl
           end
        ++ nl
      else ""
  | None => ""
  end.

Definition processing_section (dm : t) : string :=
  match processing_log dm with
  | [] => ""
  | log =>
      "## Processing Log" ++ nl ++ nl
      ++ String.concat "" (List.map (fun entry => "- " ++ entry ++ nl) log)
      ++ nl
  end.

Definition get_technical_summary (lib : libs) (h : heap) (dm : t) : string :=
  "# Technical Summary" ++ nl ++ nl
  ++ data_section lib dm
  ++ processing_section dm
  ++ tool_usage_section h (tool_usage_history dm).

(** *** The export package *)

Record index_entry := {
  idx_id : string;
  idx_title : string;
  idx_filename : string;
  idx_timestamp : string;
  idx_source : option string
}.

(** A file of the staging directory, by what was written to it. *)
Inductive file :=
| Text (s : string)
| Csv (df : DataFrame)
| H5ad (a : AnnData)
| CsvOfAnnData (a : AnnData)
| Html (f : figure)
| Png (f : figure)
| Json (entries : list index_entry).

(** The staging directory: paths relative to it, which are the names in the
    archive. *)
Abbreviation staging := (gmap string file) (only parsing).

Definition keep_in_title (c : ascii) : bool :=
  isalnum c || Ascii.eqb c " " || Ascii.eqb c "_" || Ascii.eqb c "-".

Definition safe_title (plot_title' : string) : string :=
  replace_char " " "_" (rstrip (string_filter keep_in_title plot_title')).

Definition filename_base (plot_entry : plot_entry) : string :=
  let safe := safe_title (plot_title plot_entry) in
  if truthy safe then plot_id plot_entry ++ "_" ++ safe else plot_id plot_entry.

(** [str(x)] of an optional string *)
Definition str_option (o : option string) : string := default "None" o.

Definition plot_info_text (plot_entry : plot_entry) : string :=
  "ID: " ++ plot_id plot_entry ++ nl
  ++ "Title: " ++ plot_title plot_entry ++ nl
  ++ "Created: " ++ plot_timestamp plot_entry ++ nl
  ++ "Source: " ++ str_option (plot_source plot_entry) ++ nl.

(** The [try] block of the loop over the plots: the files written before a
    rendering raises stay in the staging directory. *)
Definition export_plot (lib : libs) (fs : staging) (plot_entry : plot_entry)
  : staging * outcome index_entry :=
  let plot := plot_figure plot_entry in
  let base := filename_base plot_entry in
  if write_html_raises lib plot then
    (fs, Raises (Exception "Exception" "write_html failed"))
  else
    let fs := <["plots/" ++ base ++ ".html" := Html plot]> fs in
    if write_image_raises lib plot then
      (fs, Raises (Exception "Exception" "write_image failed"))
    else
      let fs := <["plots/" ++ base ++ ".png" := Png plot]> fs in
      let fs := <["plots/" ++ base ++ "_info.txt"
                  := Text (plot_info_text plot_entry)]> fs in
      (fs, Returns {| idx_id := plot_id plot_entry;
                      idx_title := plot_title plot_entry;
                      idx_filename := base;
                      idx_timestamp := plot_timestamp plot_entry;
                      idx_source := plot_source plot_entry |}).

(** The loop over the plots; the handler only logs. *)
Fixpoint export_plots (lib : libs) (fs : staging)
    (plots_index : list index_entry) (plots : list plot_entry)
  : staging * list index_entry :=
  match plots with
  | [] => (fs, plots_index)
  | plot_entry :: rest =>
      match export_plot lib fs plot_entry with
      | (fs', Returns info) => export_plots lib fs' (plots_index ++ [info])%list rest
      | (fs', Raises _) => export_plots lib fs' plots_index rest
      end
  end.

Definition readme_entry (numbered : Z * index_entry) : string :=
  let (idx, plot_info) := numbered in
  "## " ++ pretty idx ++ ". " ++ idx_title plot_info ++ nl ++ nl
  ++ "- ID: " ++ idx_id plot_info ++ nl
  ++ "- Created: " ++ idx_timestamp plot_info ++ nl
  ++ "- Source: " ++ str_option (idx_source plot_info) ++ nl
  ++ "- Files: [" ++ idx_filename plot_info ++ ".html]("
  ++ idx_filename plot_info ++ ".html), [" ++ idx_filename plot_info
  ++ ".png](" ++ idx_filename plot_info ++ ".png)" ++ nl ++ nl.

Definition readme (plots_index : list index_entry) : string :=
  "# Generated Plots" ++ nl ++ nl
  ++ String.concat "" (List.map readme_entry (enumerate 1 plots_index)).

(** The first part of [create_data_package]: the technical summary, the raw
    data, and the AnnData object, as [h5ad] or, when that raises, as CSV. *)
Definition staged_before_plots (lib : libs) (h : heap) (dm : t) : staging :=
  let fs : staging :=
    {["technical_summary.md" := Text (get_technical_summary lib h dm)]} in
  let fs :=
    match current_data dm with
    | Some data => <["raw_data.csv" := Csv data]> fs
    | None => fs
    end in
  match adata dm with
  | Some a =>
      if write_h5ad_raises lib a
      then <["processed_data.csv" := CsvOfAnnData a]> fs
      else <["processed_data.h5ad" := H5ad a]> fs
  | None => fs
  end.

(** [create_data_package]: the path of the archive and its contents.  The
    writes that the source guards with [try] (the renderings and the h5ad
    file) fail as [lib] says; the other writes go to a fresh temporary
    directory and succeed. *)
Definition create_data_package (lib : libs) (h : heap) (dm : t)
    (output_dir timestamp : string) : outcome (string * staging) :=
  if negb (has_data dm) then Raises (ValueError "No data to export")
  else
    let zip_filename := output_dir ++ "/data_export_" ++ timestamp ++ ".zip" in
    let fs := staged_before_plots lib h dm in
    let fs :=
      match latest_plots dm with
      | [] => fs
      | plots =>
          let (fs, plots_index) := export_plots lib fs [] plots in
          let fs := <["plots/index.json" := Json plots_index]> fs in
          <["plots/README.md" := Text (readme plots_index)]> fs
      end in
    Returns (zip_filename, fs).

End DataManager.

(** ** [client.py]: the response extractor *)

Module Client.

(** The [content] of a LangChain message: a [str], or a list of content
    blocks. *)
Inductive content :=
| CStr (s : string)
| CBlocks (blocks : list string).

Inductive message :=
| HumanMessage (c : content)
| AIMessage (c : content)
| SystemMessage (c : content)
| ToolMessage (c : content).

(** An element of a [task_result] payload's [result] list: a 2-tuple
    [(key, value)] whose value is a list of messages or something else, or
    an item that is no 2-tuple. *)
Inductive item_value :=
| VList (msgs : list message)
| VOther.

Inductive result_item :=
| Pair (key : string) (value : item_value)
| NotPair.

(** An event of the engine's debug stream.  A key that is absent from the
    dictionary has the default that [.get] gives it in the source: [[]] for
    [result] and for [values.messages]. *)
Record payload := {
  result : list result_item;
  values_messages : list message
}.

Record event := {
  type : string;
  payload_of : payload
}.

Definition no_response : string := "No response generated.".

(** [bool(msg.content)] *)
Definition content_truthy (c : content) : bool :=
  match c with
  | CStr s => truthy s
  | CBlocks [] => false
  | CBlocks (_ :: _) => true
  end.

(** [msg.content.strip()]: a list has no such method. *)
Definition content_strip (c : content) : outcome string :=
  match c with
  | CStr s => Returns (strip s)
  | CBlocks _ =>
      Raises (Exception "AttributeError"
                        "'list' object has no attribute 'strip'")
  end.

(** [msg.content == ""] *)
Definition content_is_empty_str (c : content) : bool :=
  match c with
  | CStr s => negb (truthy s)
  | CBlocks _ => false
  end.

(** The body of [for msg in reversed(...)], the same in both branches:
<<
    if isinstance(msg, AIMessage) and hasattr(msg, 'content'):
        content = msg.content.strip() if msg.content else ""
        if content or msg.content == "":
            return content
>> *)
Definition message_answer (msg : message) : outcome (option string) :=
  match msg with
  | AIMessage c =>
      bind (if content_truthy c then content_strip c else Returns "")
           (fun content =>
              if truthy content || content_is_empty_str c
              then Returns (Some content)
              else Returns None)
  | _ => Returns None
  end.

(** The body of [for item in result]. *)
Definition item_answer (item : result_item) : outcome (option string) :=
  match item with
  | Pair key (VList value) =>
      if String.eqb key "messages"
      then first_some message_answer (rev value)
      else Returns None
  | _ => Returns None
  end.

(** The body of [for event in reversed(events)]. *)
Definition event_answer (ev : event) : outcome (option string) :=
  if String.eqb (type ev) "task_result" then
    first_some item_answer (result (payload_of ev))
  else if String.eqb (type ev) "checkpoint" then
    match values_messages (payload_of ev) with
    | [] => Returns None
    | messages => first_some message_answer (rev messages)
    end
  else Returns None.

Definition _extract_response (events : list event) : outcome string :=
  match events with
  | [] => Returns no_response
  | _ =>
      bind (first_some event_answer (rev events))
           (fun found => Returns (default no_response found))
  end.

(** [ev] yields the answer [a]: the scan of this one event returns [a]. *)
Definition yields (ev : event) (a : string) : Prop :=
  event_answer ev = Returns (Some a).

(** [ev] yields nothing: its scan goes on to the next event. *)
Definition silent (ev : event) : Prop := event_answer ev = Returns None.

Definition is_assistant (msg : message) : bool :=
  match msg with
  | AIMessage _ => true
  | _ => false
  end.

(** The content of the last assistant-authored message of a sequence. *)
Definition last_assistant (msgs : list message) : option content :=
  match List.filter is_assistant msgs with
  | [] => None
  | m :: rest =>
      match List.last rest m with
      | AIMessage c => Some c
      | _ => None
      end
  end.

Definition task_result_event (msgs : list message) : event :=
  {| type := "task_result";
     payload_of := {| result := [Pair "messages" (VList msgs)];
                      values_messages := [] |} |}.

Definition checkpoint_event (msgs : list message) : event :=
  {| type := "checkpoint";
     payload_of := {| result := []; values_messages := msgs |} |}.

(** *** The orchestrator, non-streaming *)

(** One run of [self.graph.stream(...)]: the events it yields, the exception
    that ends it (if any), and what the agents did to the artifact store
    meanwhile. *)
Record engine_run := {
  emitted : list event;
  raised : option exn;
  store_after : DataManager.t -> DataManager.t
}.

Record AgentClient := {
  session_id : string;
  messages : list message;
  data_manager : DataManager.t
}.

(** The two dictionaries [_run_query] returns. *)
Inductive query_result :=
| Success (response : string) (duration : Z) (events_count : Z)
    (session : string) (has_data : bool) (plots : list DataManager.plot_entry)
| Failure (error : string) (response : string) (session : string).

(** What [query] returns: a result record, or the generator of
    [_stream_query], which runs nothing until it is consumed. *)
Inductive query_return :=
| Result (r : query_result)
| Generator.

(** The loop [for event in self.graph.stream(...): events.append(event)] *)
Definition collect_events (run : engine_run) : outcome (list event) :=
  match raised run with
  | Some e => Raises e
  | None => Returns (emitted run)
  end.

Definition append_message (m : message) (c : AgentClient) : AgentClient :=
  {| session_id := session_id c; messages := (messages c ++ [m])%list;
     data_manager := data_manager c |}.

(** The [try] block of [_run_query], on the client as the engine left it. *)
Definition _run_query_body (c : AgentClient) (run : engine_run)
    (start_time end_time : Z) : outcome (AgentClient * query_result) :=
  bind (collect_events run) (fun events =>
  bind (_extract_response events) (fun final_response =>
  let c' :=
    if truthy final_response
    then append_message (AIMessage (CStr final_response)) c
    else c in
  let dm := data_manager c' in
  Returns
    (c', Success final_response (end_time - start_time)
           (Z.of_nat (List.length events)) (session_id c')
           (DataManager.has_data dm)
           (if DataManager.has_data dm
            then DataManager.get_latest_plots dm (Some 5)
            else [])))).

Definition _run_query (c : AgentClient) (run : engine_run)
    (start_time end_time : Z) : outcome (AgentClient * query_result) :=
  let c := {| session_id := session_id c; messages := messages c;
              data_manager := store_after run (data_manager c) |} in
  try_except (_run_query_body c run start_time end_time)
    (fun e =>
       Returns (c, Failure (exn_message e)
                     ("I encountered an error: " ++ exn_message e)
                     (session_id c))).

Definition query (c : AgentClient) (user_input : string) (stream : bool)
    (run : engine_run) (start_time end_time : Z)
  : outcome (AgentClient * query_return) :=
  let c := append_message (HumanMessage (CStr user_input)) c in
  if stream then Returns (c, Generator)
  else
    bind (_run_query c run start_time end_time) (fun cr =>
    Returns (fst cr, Result (snd cr))).

End Client.

(** ** Lifetimes of a store

    The operations a caller can apply to a [DataManager], and the runs of
    a store from a state, with the ids that [add_plot] returned on the way
    and the figure each was given to. *)

Module Lifetime.
Import DataManager.

Inductive op :=
| SetData (data : data_arg) (metadata : option dict)
| AddPlot (plot : plot_arg) (title source : option string)
    (timestamp created_at : string)
| ClearPlots
| LogToolUsage (tool_name : string) (parameters : loc)
    (description : option string) (now : string).

Definition step (lib : libs) (dm : t) (o : op) : t :=
  match o with
  | SetData data metadata => fst (set_data lib dm data metadata)
  | AddPlot plot title source timestamp created_at =>
      fst (add_plot dm plot title source timestamp created_at)
  | ClearPlots => clear_plots dm
  | LogToolUsage tool_name parameters description now =>
      log_tool_usage dm tool_name parameters description now
  end.

Definition run (lib : libs) (dm : t) (ops : list op) : t :=
  fold_left (step lib) ops dm.

(** The ids returned by the [add_plot] calls of a run, oldest first, each
    with the figure stored under it. *)
Definition issued_by (dm : t) (o : op) : list (string * figure) :=
  match o with
  | AddPlot (Figure f) title source timestamp created_at =>
      match snd (add_plot dm (Figure f) title source timestamp created_at) with
      | Some new_id => [(new_id, titled_figure title f)]
      | None => []
      end
  | _ => []
  end.

Fixpoint issued (lib : libs) (dm : t) (ops : list op)
  : list (string * figure) :=
  match ops with
  | [] => []
  | o :: rest => (issued_by dm o ++ issued lib (step lib dm o) rest)%list
  end.

(** One [add_plot] call with a figure. *)
Record plot_call := {
  call_figure : figure;
  call_title : option string;
  call_source : option string;
  call_timestamp : string;
  call_created_at : string
}.

Definition add_call (dm : t) (c : plot_call) : t :=
  fst (add_plot dm (Figure (call_figure c)) (call_title c) (call_source c)
         (call_timestamp c) (call_created_at c)).

Definition add_calls (dm : t) (calls : list plot_call) : t :=
  fold_left add_call calls dm.

(** The entry that the call [c] stores when it is the [k]-th of the store. *)
Definition entry_of (k : Z) (c : plot_call) : plot_entry :=
  {| plot_id := "plot_" ++ pretty k;
     plot_figure := titled_figure (call_title c) (call_figure c);
     plot_title := if truthy (default "" (call_title c))
                   then default "" (call_title c) else "Untitled";
     plot_timestamp := call_timestamp c;
     plot_source := call_source c;
     plot_created_at := call_created_at c |}.

(** What the statements below speak of. *)

(** The inputs that [set_data] rejects. *)
Definition invalid_input (data : data_arg) : Prop :=
  match data with
  | PyNone | NotDataFrame => True
  | Frame df => fst (shape df) = 0 \/ snd (shape df) = 0
  end.

(** What the conversion loop of [set_data] does to one column when it runs
    to its end: an [object] column whose conversion returns becomes
    numeric, any other column is left as it is. *)
Definition convert_column (lib : libs) (c : column) : column :=
  if is_object c && negb (to_numeric_raises lib (cells c))
  then {| name := name c; col_dtype := numeric;
          cells := List.map (coerce_cell lib) (cells c) |}
  else c.

Definition fill_column (c : column) : column :=
  {| name := name c; col_dtype := col_dtype c;
     cells := List.map fill_cell (cells c) |}.

Definition is_num (c : cell) : bool :=
  match c with
  | Num _ => true
  | _ => false
  end.

(** What [set_data] and [log_tool_usage] leave alone. *)
Definition same_plots (dm dm' : t) : Prop :=
  latest_plots dm' = latest_plots dm /\
  plot_counter dm' = plot_counter dm /\
  max_plots_history dm' = max_plots_history dm.

(** The last [m] elements of a list. *)
Definition keep_last {A} (m : nat) (l : list A) : list A :=
  drop (List.length l - m) l.

(** The entries that a sequence of calls stores, numbered from [start]. *)
Definition entries (start : Z) (calls : list plot_call) : list plot_entry :=
  List.map (fun kc => entry_of (fst kc) (snd kc)) (enumerate start calls).

(** The id that [add_plot] makes of the counter. *)
Definition mk_id (k : Z) : string := "plot_" ++ pretty k.

(** In a store run from its creation the ids of the stored plots are
    pairwise distinct, and none is above the counter. *)
Definition plot_ids_fresh (dm : t) : Prop :=
  NoDup (List.map plot_id (latest_plots dm)) /\
  forall e, In e (latest_plots dm) ->
            exists k, plot_id e = mk_id k /\ k <= plot_counter dm.

(** The records that the [log_tool_usage] calls of a run append. *)
Definition logged_by (o : op) : list tool_record :=
  match o with
  | LogToolUsage tool_name parameters' description' now =>
      [{| tool := tool_name; parameters := parameters';
          description := description'; tool_timestamp := now |}]
  | _ => []
  end.

Definition logged (ops : list op) : list tool_record :=
  List.concat (List.map logged_by ops).




Definition html_path (p : plot_entry) : string :=
  "plots/" ++ filename_base p ++ ".html".

Definition png_path (p : plot_entry) : string :=
  "plots/" ++ filename_base p ++ ".png".

End Lifetime.

(** ** Concrete libraries and inputs for the examples *)

Module Scenarios.
Import DataManager Lifetime.

(** Libraries that convert no text and under which nothing raises. *)
Definition plain_libs : libs := {|
  parse_number := fun _ => None;
  to_numeric_raises := fun _ => false;
  anndata_raises := fun _ _ => false;
  dummy_anndata_raises := false;
  memory_mb := fun _ _ => "0.0";
  write_html_raises := fun _ => false;
  write_image_raises := fun _ => false;
  write_h5ad_raises := fun _ => false
|}.

(** As [plain_libs], but the static rendering of the figure whose data is
    ["broken"] raises. *)
Definition libs_one_broken : libs := {|
  parse_number := fun _ => None;
  to_numeric_raises := fun _ => false;
  anndata_raises := fun _ _ => false;
  dummy_anndata_raises := false;
  memory_mb := fun _ _ => "0.0";
  write_html_raises := fun _ => false;
  write_image_raises := fun f => String.eqb (fig_data f) "broken";
  write_h5ad_raises := fun _ => false
|}.

(** Two samples, an [object] column of texts and a numeric column. *)
Definition small_frame : DataFrame := {|
  index := ["s1"; "s2"];
  columns := [ {| name := "geneA"; col_dtype := object;
                  cells := [Obj "n/a"; Missing] |};
               {| name := "geneB"; col_dtype := numeric;
                  cells := [Num 1%Q; Num 2%Q] |} ]
|}.

(** One sample and one column of a dtype that is neither numeric nor
    [object]: a [datetime64] column holding a timestamp. *)
Definition datetime_frame : DataFrame := {|
  index := ["s1"];
  columns := [ {| name := "collected"; col_dtype := other;
                  cells := [Obj "2024-01-01 00:00:00"] |} ]
|}.

Definition call (data title : string) : plot_call := {|
  call_figure := {| fig_data := data; layout_title := None |};
  call_title := Some title;
  call_source := Some "qc_service";
  call_timestamp := "2024-01-01T00:00:00";
  call_created_at := "2024-01-01T00:00:00"
|}.

End Scenarios.

(** ** [client.py]: streaming, history and workspace files *)

Module Session.
Import DataManager Client.

(** A value of a node output, by its truth value and its [str] text. *)
Record field_value := {
  fv_truthy : bool;
  fv_str : string
}.

(** The output of a node in the incremental trace: something that is no
    dictionary, or a dictionary in which each of the keys read by the
    client is present or not. *)
Inductive node_output :=
| NotDict
| NodeDict (node_messages : option (list message))
    (analysis_results next data_context : option field_value).

(** The loop [for msg in reversed(node_output["messages"])] of
    [_extract_event_content], on the reversed list. *)
Fixpoint last_ai_content (reversed : list message) : option content :=
  match reversed with
  | [] => None
  | AIMessage c :: rest =>
      if content_truthy c then Some c else last_ai_content rest
  | _ :: rest => last_ai_content rest
  end.

(** One round of [for key in [...]]: the key is present and its value is
    true. *)
Definition field_text (key : string) (v : option field_value)
  : option content :=
  match v with
  | Some fv =>
      if fv_truthy fv then Some (CStr (key ++ ": " ++ fv_str fv)) else None
  | None => None
  end.

Definition _extract_event_content (output : node_output) : option content :=
  match output with
  | NotDict => None
  | NodeDict node_messages analysis_results next data_context =>
      match last_ai_content (rev (default [] node_messages)) with
      | Some c => Some c
      | None =>
          match field_text "analysis_results" analysis_results with
          | Some c => Some c
          | None =>
              match field_text "next" next with
              | Some c => Some c
              | None => field_text "data_context" data_context
              end
          end
      end
  end.

(** One run of [self.graph.stream(graph_input, config)] in the incremental
    mode: each event maps node names to node outputs, in order. *)
Record stream_run := {
  stream_emitted : list (list (string * node_output));
  stream_raised : option exn
}.

Inductive stream_record :=
| StreamRecord (node : string) (shown : content) (timestamp : string)
| CompleteRecord (duration : Z) (session : string)
| ErrorRecord (error : string) (session : string).

(** The records of one node output: [if content: yield ...]. *)
Definition node_records (timestamp : string) (item : string * node_output)
  : list stream_record :=
  match _extract_event_content (snd item) with
  | Some c =>
      if content_truthy c then [StreamRecord (fst item) c timestamp] else []
  | None => []
  end.

(** [_stream_query], consumed to its end; [clock i j] is the time at which
    the [j]-th node output of the [i]-th event is processed. *)
Definition _stream_query (c : AgentClient) (run : stream_run)
    (clock : nat -> nat -> string) (start_time end_time : Z)
  : list stream_record :=
  (List.concat
     (imap (fun i event =>
              List.concat (imap (fun j => node_records (clock i j)) event))
           (stream_emitted run))
   ++ [match stream_raised run with
       | None => CompleteRecord (end_time - start_time) (session_id c)
       | Some e => ErrorRecord (exn_message e) (session_id c)
       end])%list.

(** [get_conversation_history] *)
Definition role_of (msg : message) : string :=
  match msg with
  | HumanMessage _ => "user"
  | AIMessage _ => "assistant"
  | _ => "system"
  end.

Definition content_of (msg : message) : content :=
  match msg with
  | HumanMessage c | AIMessage c | SystemMessage c | ToolMessage c => c
  end.

Definition get_conversation_history (c : AgentClient)
  : list (string * content) :=
  List.map (fun msg => (role_of msg, content_of msg)) (messages c).

(** *** Files of the workspace

    A path is a string in the normal form of [pathlib], and [dir / name] is
    [dir ++ "/" ++ name].  The file system answers three questions. *)
Record filesystem := {
  (** the regular file at a path, if there is one: what [read_text] does *)
  read_text : string -> option (outcome string);
  (** [dir.exists()] *)
  dir_exists : string -> bool;
  (** the names of the entries of [dir.glob("*")], in its order *)
  glob_star : string -> outcome (list string)
}.

Definition join (dir name : string) : string := dir ++ "/" ++ name.

Definition is_absolute (path : string) : bool :=
  match path with
  | String "/" _ => true
  | _ => false
  end.

(** [str.lower] on one character: the capital letters of ASCII and of the
    Latin-1 supplement. *)
Definition lower_char (c : ascii) : ascii :=
  let n := N_of_ascii c in
  if ((65 <=? n) && (n <=? 90) || (192 <=? n) && (n <=? 214)
      || (216 <=? n) && (n <=? 222))%N
  then ascii_of_N (n + 32) else c.

Fixpoint lower (s : string) : string :=
  match s with
  | EmptyString => EmptyString
  | String c s' => String (lower_char c) (lower s')
  end.

(** The first loop of [read_file] over [search_dirs]: the first directory
    that holds the file decides. *)
Fixpoint read_in_dirs (fs : filesystem) (search_dirs : list string)
    (filename : string) : option string :=
  match search_dirs with
  | [] => None
  | search_dir :: rest =>
      match read_text fs (join search_dir filename) with
      | Some (Returns content) => Some content
      | Some (Raises e) => Some ("Error reading file: " ++ exn_message e)
      | None => read_in_dirs fs rest filename
      end
  end.

(** The loop over the entries of one directory in the search that ignores
    case. *)
Fixpoint match_ignoring_case (fs : filesystem) (search_dir : string)
    (names : list string) (filename_lower : string) : option string :=
  match names with
  | [] => None
  | name :: rest =>
      match read_text fs (join search_dir name) with
      | Some r =>
          if String.eqb (lower name) filename_lower then
            match r with
            | Returns content => Some content
            | Raises e => Some ("Error reading file: " ++ exn_message e)
            end
          else match_ignoring_case fs search_dir rest filename_lower
      | None => match_ignoring_case fs search_dir rest filename_lower
      end
  end.

(** The second loop over [search_dirs]: a directory that does not exist or
    cannot be listed is passed over. *)
Fixpoint search_ignoring_case (fs : filesystem) (search_dirs : list string)
    (filename_lower : string) : option string :=
  match search_dirs with
  | [] => None
  | search_dir :: rest =>
      if negb (dir_exists fs search_dir) then
        search_ignoring_case fs rest filename_lower
      else
        match glob_star fs search_dir with
        | Returns names =>
            match match_ignoring_case fs search_dir names filename_lower with
            | Some r => Some r
            | None => search_ignoring_case fs rest filename_lower
            end
        | Raises _ => search_ignoring_case fs rest filename_lower
        end
  end.

(** [read_file]; [search_dirs] are the data, plots and exports directories
    of the data manager, in this order. *)
Definition read_file (fs : filesystem) (workspace_path : string)
    (search_dirs : list string) (filename : string) : string :=
  if is_absolute filename then
    match read_text fs filename with
    | Some (Returns content) => content
    | Some (Raises e) =>
        "Error reading file " ++ filename ++ ": " ++ exn_message e
    | None => "File not found: " ++ filename
    end
  else
    match read_text fs (join workspace_path filename) with
    | Some (Returns content) => content
    | Some (Raises e) => "Error reading file: " ++ exn_message e
    | None =>
        match read_in_dirs fs search_dirs filename with
        | Some r => r
        | None =>
            match search_ignoring_case fs search_dirs (lower filename) with
            | Some r => r
            | None => "File not found in workspace: " ++ filename
            end
        end
    end.

(** [DataManager.save_plots_to_workspace]: the paths saved, in order, and
    the files written.  A static rendering that raises is only left out; an
    interactive rendering that raises skips the plot. *)
Definition save_plot (lib : libs) (plots_dir : string)
    (state : list string * staging) (plot_entry : plot_entry)
  : list string * staging :=
  let (saved_files, fs) := state in
  let plot := plot_figure plot_entry in
  let base := filename_base plot_entry in
  if write_html_raises lib plot then (saved_files, fs)
  else
    let html_path := join plots_dir (base ++ ".html") in
    let fs := <[html_path := Html plot]> fs in
    let saved_files := (saved_files ++ [html_path])%list in
    if write_image_raises lib plot then (saved_files, fs)
    else
      let png_path := join plots_dir (base ++ ".png") in
      ((saved_files ++ [png_path])%list, <[png_path := Png plot]> fs).

Definition save_plots_to_workspace (lib : libs) (dm : t) (plots_dir : string)
    (fs : staging) : list string * staging :=
  match latest_plots dm with
  | [] => ([], fs)
  | plots => fold_left (save_plot lib plots_dir) plots ([], fs)
  end.

(** What the statements on these functions speak of. *)

(** The interactive rendering of a plot can be written. *)
Definition html_ok (lib : libs) (p : plot_entry) : bool :=
  negb (write_html_raises lib (plot_figure p)).

(** The paths [save_plots_to_workspace] reports for one plot. *)
Definition saved_paths (lib : libs) (plots_dir : string) (p : plot_entry)
  : list string :=
  if write_html_raises lib (plot_figure p) then []
  else if write_image_raises lib (plot_figure p)
       then [join plots_dir (filename_base p ++ ".html")]
       else [join plots_dir (filename_base p ++ ".html");
             join plots_dir (filename_base p ++ ".png")].

(** Every content in the messages of the events is a [str]. *)
Definition str_content (msg : message) : Prop :=
  match content_of msg with
  | CStr _ => True
  | CBlocks _ => False
  end.

Definition str_item (item : result_item) : Prop :=
  match item with
  | Pair _ (VList msgs) => Forall str_content msgs
  | _ => True
  end.

Definition str_event (ev : event) : Prop :=
  Forall str_item (result (payload_of ev)) /\
  Forall str_content (values_messages (payload_of ev)).

(** What [read_file] returns for a file of the workspace that it found:
    its text, or the message of the error that reading it raised. *)
Definition read_result (r : outcome string) : string :=
  match r with
  | Returns content => content
  | Raises e => "Error reading file: " ++ exn_message e
  end.

(** The search that ignores case finds nothing for [filename] in the
    directory [dir]: the directory does not exist or cannot be listed, or
    none of its regular files has the name up to case. *)
Definition no_match_ignoring_case (fs : filesystem) (filename dir : string)
  : Prop :=
  dir_exists fs dir = false \/
  (exists e, glob_star fs dir = Raises e) \/
  (exists names,
     glob_star fs dir = Returns names /\
     Forall (fun name => read_text fs (join dir name) = None \/
                         lower name <> lower filename) names).

(** A workspace [ws] with [ws/plots/notes.txt] unreadable,
    [ws/exports/notes.txt] readable and [ws/data/Counts.CSV]. *)
Definition sample_fs : filesystem := {|
  read_text := fun path =>
    if String.eqb path "ws/data/Counts.CSV" then Some (Returns "a,b")
    else if String.eqb path "ws/plots/notes.txt"
    then Some (Raises (Exception "PermissionError" "denied"))
    else if String.eqb path "ws/exports/notes.txt"
    then Some (Returns "exported")
    else None;
  dir_exists := fun dir => negb (String.eqb dir "ws/plots");
  glob_star := fun dir =>
    if String.eqb dir "ws/data" then Returns ["old"; "readme"; "Counts.CSV"]
    else if String.eqb dir "ws/exports" then Returns ["notes.txt"]
    else Raises (Exception "OSError" "cannot list")
|}.

Definition sample_dirs : list string := ["ws/data"; "ws/plots"; "ws/exports"].

(** A record of displayed content, which is never empty. *)
Definition shown_record (r : stream_record) : Prop :=
  match r with
  | StreamRecord _ c _ => content_truthy c = true
  | _ => False
  end.

(** A character of a file-name slug. *)
Definition slug_char (c : ascii) : bool :=
  isalnum c || Ascii.eqb c "_" || Ascii.eqb c "-".

Fixpoint string_forallb (p : ascii -> bool) (s : string) : bool :=
  match s with
  | EmptyString => true
  | String c s' => p c && string_forallb p s'
  end.

End Session.

(** ** [data_manager.py]: saving the dataset *)

Module Workspace.
Import DataManager Session.

(** The part of [s] after the last [sep], when [sep] occurs in [s]. *)
Fixpoint after_last (sep : ascii) (s : string) : option string :=
  match s with
  | EmptyString => None
  | String c s' =>
      match after_last sep s' with
      | Some r => Some r
      | None => if Ascii.eqb c sep then Some s' else None
      end
  end.

(** [Path(path).name], [.suffix] and [.stem] of [pathlib] for a path in
    normal form: with [i = name.rfind('.')], the suffix is [name[i:]] and
    the stem [name[:i]] when [0 < i < len(name) - 1]; otherwise the suffix
    is empty and the stem is the name. *)
Definition path_name (path : string) : string :=
  default path (after_last "/" path).

Definition splits_at_dot (name ext : string) : bool :=
  truthy ext && (S (String.length ext) <? String.length name)%nat.

Definition suffix (path : string) : string :=
  let name := path_name path in
  match after_last "." name with
  | Some ext => if splits_at_dot name ext then "." ++ ext else ""
  | None => ""
  end.

Definition stem (path : string) : string :=
  let name := path_name path in
  match after_last "." name with
  | Some ext =>
      if splits_at_dot name ext
      then substring 0 (String.length name - String.length ext - 1) name
      else name
  | None => name
  end.

(** A file written by [save_data] or [save_data_to_workspace]. *)
Inductive saved_file :=
| CsvFile (data : DataFrame)
| HdfFile (data : DataFrame) (key : string)
| ExcelFile (data : DataFrame)
| MetadataJson (metadata : dict).

Abbreviation saved_files := (gmap string saved_file) (only parsing).

(** A write to [path]: it raises when [write_raises path], and creates or
    replaces the file otherwise. *)
Definition write (write_raises : string -> bool) (path : string)
    (content : saved_file) (fs : saved_files) : saved_files * outcome unit :=
  if write_raises path
  then (fs, Raises (Exception "OSError" ("cannot write " ++ path)))
  else (<[path := content]> fs, Returns tt).



(** [save_data_to_workspace]: [None] without data and when a write raises;
    [timestamp] is the time, formatted, that names the file when no name is
    given. *)
Definition save_data_to_workspace (write_raises : string -> bool) (dm : t)
    (data_dir : string) (filename : option string) (timestamp : string)
    (fs : saved_files) : saved_files * option string :=
  match current_data dm with
  | Some data =>
      if negb (has_data dm) then (fs, None)
      else
        let filename := default ("data_" ++ timestamp ++ ".csv") filename in
        let filepath := join data_dir filename in
        match write write_raises filepath (CsvFile data) fs with
        | (fs, Raises _) => (fs, None)
        | (fs, Returns _) =>
            match current_metadata dm with
            | [] => (fs, Some filepath)
            | metadata =>
                let metadata_path :=
                  join data_dir (stem filename ++ "_metadata.json") in
                match write write_raises metadata_path
                        (MetadataJson metadata) fs with
                | (fs, Raises _) => (fs, None)
                | (fs, Returns _) => (fs, Some filepath)
                end
            end
        end
  | None => (fs, None)
  end.

End Workspace.

Import Client.

(** * Properties *)

Open Scope list_scope.

(** ** The response extractor *)

Example extract_hi_hello :
  _extract_response
    [task_result_event [HumanMessage (CStr "hi"); AIMessage (CStr "hello")]]
  = Returns "hello".
Proof. reflexivity. Qed.

Example extract_no_events : _extract_response [] = Returns no_response.
Proof. reflexivity. Qed.

Example extract_whitespace_only_falls_back :
  _extract_response
    [task_result_event [AIMessage (CStr "earlier"); AIMessage (CStr "  ")]]
  = Returns "earlier".
Proof. reflexivity. Qed.

Example extract_list_content_raises :
  _extract_response [task_result_event [AIMessage (CBlocks ["text"])]]
  = Raises (Exception "AttributeError" "'list' object has no attribute 'strip'").
Proof. reflexivity. Qed.

Section FirstSome.
Context {A B : Type} (body : A -> outcome (option B)).

Lemma first_some_skip (l1 l2 : list A) :
  Forall (fun x => body x = Returns None) l1 ->
  first_some body (l1 ++ l2) = first_some body l2.
Proof.
  induction 1 as [|x l1 Hx _ IH]; simpl; [reflexivity|].
  rewrite Hx. exact IH.
Qed.

Lemma first_some_hit (x : A) (v : B) (l : list A) :
  body x = Returns (Some v) ->
  first_some body (x :: l) = Returns (Some v).
Proof. intros Hx. simpl. rewrite Hx. reflexivity. Qed.

Lemma first_some_found (l1 l2 : list A) (x : A) (v : B) :
  Forall (fun y => body y = Returns None) l1 ->
  body x = Returns (Some v) ->
  first_some body (l1 ++ x :: l2) = Returns (Some v).
Proof.
  intros Hl1 Hx. rewrite first_some_skip by assumption.
  apply first_some_hit, Hx.
Qed.

Lemma first_some_none (l : list A) :
  Forall (fun x => body x = Returns None) l ->
  first_some body l = Returns None.
Proof.
  intros H. rewrite <- (app_nil_r l). rewrite first_some_skip by assumption.
  reflexivity.
Qed.
End FirstSome.

Lemma extract_snoc_nonempty (pre post : list event) (ev : event) :
  _extract_response (pre ++ ev :: post)
  = bind (first_some event_answer (rev post ++ ev :: rev pre))
         (fun found => Returns (default no_response found)).
Proof.
  unfold _extract_response.
  destruct (pre ++ ev :: post) as [|e0 l] eqn:E.
  - destruct pre; discriminate.
  - rewrite <- E, rev_app_distr. simpl. rewrite <- app_assoc. reflexivity.
Qed.

(** The scan stops at the most recent event that yields an answer. *)
Lemma extract_most_recent (pre post : list event) (ev : event) (a : string) :
  yields ev a -> Forall silent post ->
  _extract_response (pre ++ ev :: post) = Returns a.
Proof.
  intros Hev Hpost. rewrite extract_snoc_nonempty.
  rewrite (first_some_found event_answer (rev post) (rev pre) ev a).
  - reflexivity.
  - apply List.Forall_rev, Hpost.
  - exact Hev.
Qed.

(** C1, as stated, fails: a checkpoint event that comes after a task_result
    event is consulted first, and its answer is returned although a
    task_result event yields one. *)
Lemma checkpoint_after_task_result_wins :
  let events :=
    [task_result_event [HumanMessage (CStr "hi");
                        AIMessage (CStr "from task_result")];
     checkpoint_event [HumanMessage (CStr "hi");
                       AIMessage (CStr "from checkpoint")]] in
  (exists ev a, In ev events /\ type ev = "task_result" /\ yields ev a) /\
  (exists ev a, In ev events /\ type ev = "checkpoint" /\ yields ev a) /\
  _extract_response events = Returns "from checkpoint" /\
  ~ (exists ev a, In ev events /\ type ev = "task_result" /\ yields ev a /\
                  _extract_response events = Returns a).
Proof.
  cbv zeta. split; [|split; [|split]].
  - eexists _, "from task_result". split; [left; reflexivity|].
    split; reflexivity.
  - eexists _, "from checkpoint". split; [right; left; reflexivity|].
    split; reflexivity.
  - reflexivity.
  - intros (ev & a & Hin & Hty & Hy & Hex).
    vm_compute in Hex. injection Hex as <-.
    destruct Hin as [<-|[<-|[]]].
    + vm_compute in Hy. discriminate Hy.
    + vm_compute in Hty. discriminate Hty.
Qed.

(** C1, amended: the events are consulted in one reverse scan, whatever
    their kind, so the answer returned is that of the most recent event
    that yields one; a task_result event's answer is returned when no later
    event (checkpoint or task_result) yields an answer, and a checkpoint
    event's answer likewise. *)
Theorem extract_returns_most_recent_answer
    (pre post : list event) (ev : event) (a : string) :
  yields ev a ->
  Forall silent post ->
  _extract_response (pre ++ ev :: post) = Returns a.
Proof.
  intros Hev Hpost. unfold yields in Hev.
  rewrite extract_snoc_nonempty.
  assert (Hlater : Forall (fun e => event_answer e = Returns None) (rev post)).
  { apply List.Forall_rev. exact Hpost. }
  rewrite (first_some_skip event_answer (rev post) (ev :: rev pre) Hlater).
  simpl. rewrite Hev. reflexivity.
Qed.

Lemma extract_returns_most_recent_answer_witness :
  _extract_response
    ([task_result_event [AIMessage (CStr "old")]]
       ++ task_result_event [AIMessage (CStr "final")]
       :: [checkpoint_event [HumanMessage (CStr "hi")]])
  = Returns "final".
Proof.
  apply extract_returns_most_recent_answer.
  - reflexivity.
  - repeat constructor.
Defined.

Lemma truthy_nonempty (s : string) : s <> "" -> truthy s = true.
Proof. destruct s; [congruence|reflexivity]. Qed.

Lemma message_answer_assistant (c : string) :
  c = "" \/ strip c <> "" ->
  message_answer (AIMessage (CStr c)) = Returns (Some (strip c)).
Proof.
  intros [->|Hc]; [reflexivity|].
  destruct c as [|ch c]; [reflexivity|].
  unfold message_answer. simpl content_truthy. simpl bind.
  rewrite (truthy_nonempty _ Hc). reflexivity.
Qed.

Lemma message_answer_other (m : message) :
  is_assistant m = false -> message_answer m = Returns None.
Proof. destruct m; simpl; intros; congruence. Qed.

Lemma last_assistant_answer (msgs tail : list message) (c : string) :
  Forall (fun m => is_assistant m = false) tail ->
  c = "" \/ strip c <> "" ->
  first_some message_answer (rev (msgs ++ AIMessage (CStr c) :: tail))
  = Returns (Some (strip c)).
Proof.
  intros Htail Hc. rewrite rev_app_distr. simpl. rewrite <- app_assoc. simpl.
  apply first_some_found.
  - apply List.Forall_rev.
    eapply List.Forall_impl; [|exact Htail]. apply message_answer_other.
  - apply message_answer_assistant, Hc.
Qed.

(** C3, as stated, fails: the text is not returned verbatim, its leading
    and trailing whitespace is removed. *)
Lemma padded_answer_is_not_verbatim :
  let msgs := [HumanMessage (CStr "hi"); AIMessage (CStr " hello ")] in
  last_assistant msgs = Some (CStr " hello ") /\
  _extract_response [task_result_event msgs] = Returns "hello" /\
  _extract_response [task_result_event msgs] <> Returns " hello ".
Proof. cbv zeta. repeat split. discriminate. Qed.

(** C3, amended: for a task_result event whose messages (the first
    ["messages"] pair that answers) contain an assistant-authored message,
    the extractor returns the text of the last such message with its leading
    and trailing whitespace removed, provided that text is the empty string
    or has a character that is not whitespace; when the text is the empty
    string the result is the empty string, and no earlier message is
    consulted.  Events after this one are taken to yield nothing. *)
Theorem extract_task_result_last_assistant
    (pre post : list event) (ev : event) (before after : list result_item)
    (msgs tail : list message) (c : string) :
  type ev = "task_result" ->
  result (payload_of ev)
  = before ++ Pair "messages" (VList (msgs ++ AIMessage (CStr c) :: tail))
      :: after ->
  Forall (fun item => item_answer item = Returns None) before ->
  Forall (fun m => is_assistant m = false) tail ->
  Forall silent post ->
  c = "" \/ strip c <> "" ->
  _extract_response (pre ++ ev :: post) = Returns (strip c) /\
  (c = "" -> _extract_response (pre ++ ev :: post) = Returns "").
Proof.
  intros Hty Hres Hbefore Htail Hpost Hc.
  assert (H : _extract_response (pre ++ ev :: post) = Returns (strip c)).
  { apply extract_most_recent; [|exact Hpost].
    unfold yields, event_answer. rewrite Hty, Hres. simpl String.eqb.
    apply first_some_found; [exact Hbefore|].
    simpl. apply last_assistant_answer; assumption. }
  split; [exact H|]. intros ->. exact H.
Qed.

Lemma extract_task_result_last_assistant_witness :
  _extract_response
    ([checkpoint_event [AIMessage (CStr "draft")]]
       ++ task_result_event [AIMessage (CStr "first"); AIMessage (CStr "");
                             HumanMessage (CStr "thanks")]
       :: [])
  = Returns "".
Proof.
  refine (proj1 (extract_task_result_last_assistant
                   [checkpoint_event [AIMessage (CStr "draft")]] []
                   (task_result_event _) [] []
                   [AIMessage (CStr "first")] [HumanMessage (CStr "thanks")]
                   "" _ _ _ _ _ _)).
  - reflexivity.
  - reflexivity.
  - constructor.
  - repeat constructor.
  - constructor.
  - left. reflexivity.
Defined.

(** ** The orchestrator *)

Example query_extraction_failure :
  query {| session_id := "s1"; messages := []; data_manager := DataManager.init |}
        "hello" false
        {| emitted := [task_result_event [AIMessage (CBlocks ["text"])]];
           raised := None; store_after := fun dm => dm |} 0 1
  = Returns
      ({| session_id := "s1"; messages := [HumanMessage (CStr "hello")];
          data_manager := DataManager.init |},
       Result (Failure "'list' object has no attribute 'strip'"
                 "I encountered an error: 'list' object has no attribute 'strip'"
                 "s1")).
Proof. reflexivity. Qed.

Example query_engine_failure :
  query {| session_id := "s1"; messages := []; data_manager := DataManager.init |}
        "hello" false
        {| emitted := [task_result_event [AIMessage (CStr "partial")]];
           raised := Some (Exception "RuntimeError" "model unavailable");
           store_after := fun dm => dm |} 0 1
  = Returns
      ({| session_id := "s1"; messages := [HumanMessage (CStr "hello")];
          data_manager := DataManager.init |},
       Result (Failure "model unavailable"
                 "I encountered an error: model unavailable" "s1")).
Proof. reflexivity. Qed.

Example query_success :
  query {| session_id := "s1"; messages := []; data_manager := DataManager.init |}
        "hi" false
        {| emitted := [task_result_event [HumanMessage (CStr "hi");
                                          AIMessage (CStr "hello")]];
           raised := None; store_after := fun dm => dm |} 3 10
  = Returns
      ({| session_id := "s1";
          messages := [HumanMessage (CStr "hi"); AIMessage (CStr "hello")];
          data_manager := DataManager.init |},
       Result (Success "hello" 7 1 "s1" false [])).
Proof. reflexivity. Qed.


(** ** The plot collection *)

Import DataManager Lifetime.

Lemma slice_from_0 {A} (l : list A) : slice_from (- 0) l = l.
Proof.
  unfold slice_from. simpl Z.opp. simpl Z.ltb. cbv iota.
  rewrite Z.min_l by lia. reflexivity.
Qed.

(** C9: [get_latest_plots(0)] is the whole collection: [-0] is [0], and
    [latest_plots[0:]] is every entry, not the last zero of them. *)
Theorem get_latest_plots_zero_returns_all (dm : t) :
  get_latest_plots dm (Some 0) = latest_plots dm.
Proof. unfold get_latest_plots. apply slice_from_0. Qed.

(** For a positive [n] the result is the last [n] entries. *)
Lemma get_latest_plots_last (dm : t) (n : Z) :
  0 < n ->
  get_latest_plots dm (Some n)
  = drop (List.length (latest_plots dm) - Z.to_nat n) (latest_plots dm).
Proof.
  intros Hn. unfold get_latest_plots, slice_from.
  destruct (Z.ltb_spec (- n) 0) as [_|?]; [|lia].
  f_equal. lia.
Qed.

Example get_latest_plots_zero_nonempty :
  let dm := add_calls init [{| call_figure := {| fig_data := "a"; layout_title := None |};
                               call_title := Some "QC"; call_source := None;
                               call_timestamp := "t1"; call_created_at := "t1" |}] in
  List.length (get_latest_plots dm (Some 0)) = 1%nat.
Proof. reflexivity. Qed.

Lemma _create_anndata_same_plots (lib : libs) (dm : t) :
  same_plots dm (_create_anndata lib dm).
Proof.
  unfold _create_anndata, same_plots.
  destruct (current_data dm); [|auto].
  destruct (negb (has_data dm)); [auto|].
  destruct (anndata_raises lib _ _); simpl; auto.
Qed.

Lemma set_data_same_plots (lib : libs) (dm : t) (data : data_arg)
    (metadata : option dict) :
  same_plots dm (fst (set_data lib dm data metadata)).
Proof.
  unfold set_data, set_data_body.
  destruct data as [| |df]; try (split; [|split]; reflexivity).
  destruct (_ || _); [split; [|split]; reflexivity|].
  destruct (if existsb is_object (columns df) then _ else _) as [cols|e];
    simpl; [|split; [|split]; reflexivity].
  match goal with |- same_plots _ (with_processing_log _ (_create_anndata _ ?d)) =>
    destruct (_create_anndata_same_plots lib d) as (H1 & H2 & H3) end.
  unfold same_plots. simpl. rewrite H1, H2, H3. auto.
Qed.

Lemma step_max (lib : libs) (dm : t) (o : op) :
  max_plots_history (step lib dm o) = max_plots_history dm.
Proof.
  destruct o; simpl; try reflexivity.
  - apply set_data_same_plots.
  - destruct plot; reflexivity.
Qed.

Lemma step_bounded (lib : libs) (dm : t) (o : op) :
  Z.of_nat (List.length (latest_plots dm)) <= max_plots_history dm ->
  Z.of_nat (List.length (latest_plots (step lib dm o)))
  <= max_plots_history (step lib dm o).
Proof.
  intros Hinv. rewrite step_max. destruct o; simpl.
  - destruct (set_data_same_plots lib dm data metadata) as (-> & _). exact Hinv.
  - destruct plot as [f|]; [|exact Hinv]. simpl.
    destruct (Z.ltb_spec (max_plots_history dm)
                (Z.of_nat (List.length (latest_plots dm ++ [
                  {| plot_id := ("plot_" ++ pretty (plot_counter dm + 1))%string;
                     plot_figure := titled_figure title f;
                     plot_title := if truthy (default ""%string title)
                                   then default ""%string title
                                   else "Untitled"%string;
                     plot_timestamp := timestamp; plot_source := source;
                     plot_created_at := created_at |}])))) as [Hlt|Hge].
    + rewrite length_drop, length_app. simpl. lia.
    + exact Hge.
  - lia.
  - exact Hinv.
Qed.

Lemma run_bounded (lib : libs) (ops : list op) (dm : t) :
  Z.of_nat (List.length (latest_plots dm)) <= max_plots_history dm ->
  Z.of_nat (List.length (latest_plots (run lib dm ops)))
  <= max_plots_history (run lib dm ops) /\
  max_plots_history (run lib dm ops) = max_plots_history dm.
Proof.
  revert dm. induction ops as [|o ops IH]; intros dm Hinv; simpl.
  - auto.
  - destruct (IH (step lib dm o) (step_bounded lib dm o Hinv)) as [H1 H2].
    split; [exact H1|]. rewrite H2. apply step_max.
Qed.

Lemma keep_last_app_keep {A} (m : nat) (X Y : list A) :
  keep_last m (keep_last m X ++ Y) = keep_last m (X ++ Y).
Proof.
  unfold keep_last. rewrite !length_app, length_drop.
  destruct (le_lt_dec (List.length X) m) as [Hle|Hgt].
  - replace (List.length X - m)%nat with 0%nat by lia. simpl.
    f_equal. lia.
  - replace (List.length X - (List.length X - m) + List.length Y - m)%nat
      with (List.length Y) by lia.
    replace (List.length X + List.length Y - m)%nat
      with ((List.length X - m) + List.length Y)%nat by lia.
    rewrite <- drop_drop. f_equal.
    rewrite drop_app_le by lia. reflexivity.
Qed.

Lemma entries_cons (start : Z) (c : plot_call) (calls : list plot_call) :
  entries start (c :: calls) = entry_of start c :: entries (start + 1) calls.
Proof. reflexivity. Qed.

Lemma entries_app (calls1 calls2 : list plot_call) (start : Z) :
  entries start (calls1 ++ calls2)
  = entries start calls1
    ++ entries (start + Z.of_nat (List.length calls1)) calls2.
Proof.
  revert start. induction calls1 as [|c calls1 IH]; intros start.
  - simpl. rewrite Z.add_0_r. reflexivity.
  - simpl List.app. rewrite !entries_cons, IH. simpl List.app.
    do 3 f_equal. simpl List.length. lia.
Qed.

Lemma entries_length (calls : list plot_call) (start : Z) :
  List.length (entries start calls) = List.length calls.
Proof.
  revert start. induction calls as [|c calls IH]; intros start;
    [reflexivity|].
  rewrite entries_cons. simpl. rewrite IH. reflexivity.
Qed.

Lemma add_call_state (dm : t) (c : plot_call) :
  Z.of_nat (List.length (latest_plots dm)) <= max_plots_history dm ->
  latest_plots (add_call dm c)
  = keep_last (Z.to_nat (max_plots_history dm))
      (latest_plots dm ++ [entry_of (plot_counter dm + 1) c]) /\
  plot_counter (add_call dm c) = plot_counter dm + 1 /\
  max_plots_history (add_call dm c) = max_plots_history dm.
Proof.
  intros Hinv. unfold add_call, add_plot, keep_last. simpl.
  split; [|split; reflexivity].
  fold (entry_of (plot_counter dm + 1) c).
  rewrite length_app. simpl List.length.
  destruct (Z.ltb_spec (max_plots_history dm)
              (Z.of_nat (List.length (latest_plots dm) + 1))) as [Hlt|Hge].
  - f_equal. lia.
  - replace (List.length (latest_plots dm) + 1
             - Z.to_nat (max_plots_history dm))%nat with 0%nat by lia.
    reflexivity.
Qed.

Lemma add_calls_state (calls : list plot_call) (dm : t) :
  Z.of_nat (List.length (latest_plots dm)) <= max_plots_history dm ->
  latest_plots (add_calls dm calls)
  = keep_last (Z.to_nat (max_plots_history dm))
      (latest_plots dm ++ entries (plot_counter dm + 1) calls) /\
  plot_counter (add_calls dm calls)
  = plot_counter dm + Z.of_nat (List.length calls) /\
  max_plots_history (add_calls dm calls) = max_plots_history dm.
Proof.
  revert dm. induction calls as [|c calls IH]; intros dm Hinv.
  - simpl. rewrite app_nil_r, Z.add_0_r. split; [|auto].
    unfold keep_last.
    replace (List.length (latest_plots dm)
             - Z.to_nat (max_plots_history dm))%nat with 0%nat by lia.
    reflexivity.
  - destruct (add_call_state dm c Hinv) as (Hp & Hc & Hm).
    assert (Hinv' : Z.of_nat (List.length (latest_plots (add_call dm c)))
                    <= max_plots_history (add_call dm c)).
    { rewrite Hp, Hm. unfold keep_last. rewrite length_drop. lia. }
    destruct (IH (add_call dm c) Hinv') as (Hp' & Hc' & Hm').
    change (add_calls dm (c :: calls)) with (add_calls (add_call dm c) calls).
    rewrite Hp', Hc', Hm', Hp, Hc, Hm. split; [|split; [|reflexivity]].
    + rewrite keep_last_app_keep, <- app_assoc. reflexivity.
    + rewrite length_cons. lia.
Qed.

Lemma plot_id_inj (j k : Z) :
  ("plot_" ++ pretty j)%string = ("plot_" ++ pretty k)%string -> j = k.
Proof. simpl. intros [= H]. exact (pretty_Z_inj j k H). Qed.

Lemma find_plot_entries_above (calls : list plot_call) (start k : Z) :
  k < start ->
  find_plot ("plot_" ++ pretty k)%string (entries start calls) = None.
Proof.
  revert start. induction calls as [|c calls IH]; intros start Hk;
    [reflexivity|].
  rewrite entries_cons. unfold find_plot; fold find_plot.
  destruct (String.eqb_spec (plot_id (entry_of start c))
              ("plot_" ++ pretty k)%string) as [Heq|_].
  - apply plot_id_inj in Heq. lia.
  - apply IH. lia.
Qed.

Lemma entries_ids_above (calls : list plot_call) (start k : Z)
    (e : plot_entry) :
  k < start -> In e (entries start calls) ->
  plot_id e <> ("plot_" ++ pretty k)%string.
Proof.
  revert start. induction calls as [|c calls IH]; intros start Hk Hin;
    [destruct Hin|].
  rewrite entries_cons in Hin. destruct Hin as [<-|Hin].
  - intros Heq. apply plot_id_inj in Heq. lia.
  - apply (IH (start + 1)); [lia|exact Hin].
Qed.

(** C6: no operation changes the configured maximum, and a collection
    within the maximum stays within it after any operations; from a new
    store, whose maximum is 50, the collection therefore never holds more
    than 50 plots.  After 51 plots are added to a new store exactly 50 are
    retained, the first one added is gone, and [get_latest_plots(1)] is the
    one added last. *)
Theorem plots_bounded_fifo
    (lib : libs) (ops : list op) (dm0 : t)
    (first last : plot_call) (middle : list plot_call) :
  List.length middle = 49%nat ->
  (Z.of_nat (List.length (latest_plots dm0)) <= max_plots_history dm0 ->
   Z.of_nat (List.length (latest_plots (run lib dm0 ops)))
   <= max_plots_history (run lib dm0 ops) /\
   max_plots_history (run lib dm0 ops) = max_plots_history dm0) /\
  (Z.of_nat (List.length (latest_plots (run lib init ops))) <= 50 /\
   max_plots_history (run lib init ops) = 50) /\
  let dm := add_calls init (first :: middle ++ [last]) in
  List.length (latest_plots dm) = 50%nat /\
  ~ In (entry_of 1 first) (latest_plots dm) /\
  get_plot_by_id dm "plot_1" = None /\
  latest_plots dm = entries 2 middle ++ [entry_of 51 last] /\
  get_latest_plots dm (Some 1) = [entry_of 51 last].
Proof.
  intros Hmid. split; [apply run_bounded|]. split.
  { destruct (run_bounded lib ops init) as [Hle Hmax]; [simpl; lia|].
    rewrite Hmax in Hle. split; [exact Hle|exact Hmax]. }
  cbv zeta.
  assert (Hplots : latest_plots (add_calls init (first :: middle ++ [last]))
                   = entries 2 middle ++ [entry_of 51 last]).
  { destruct (add_calls_state (first :: middle ++ [last]) init) as (Hp & _).
    { simpl. lia. }
    rewrite Hp. simpl latest_plots. simpl plot_counter. simpl max_plots_history.
    unfold keep_last. rewrite app_nil_l, entries_length, entries_cons.
    rewrite length_cons, length_app, Hmid. simpl.
    rewrite entries_app, Hmid. reflexivity. }
  assert (Hlen : List.length (entries 2 middle ++ [entry_of 51 last]) = 50%nat).
  { rewrite length_app, entries_length, Hmid. reflexivity. }
  assert (Happ : entries 2 middle ++ [entry_of 51 last]
                 = entries 2 (middle ++ [last])).
  { rewrite entries_app, Hmid. reflexivity. }
  rewrite get_latest_plots_last by lia.
  unfold get_plot_by_id. rewrite Hplots, Hlen. split; [reflexivity|].
  split; [|split; [|split]].
  - intros Hin. rewrite Happ in Hin.
    apply (entries_ids_above _ 2 1) in Hin; [|lia]. apply Hin. reflexivity.
  - rewrite Happ. apply (find_plot_entries_above _ 2 1). lia.
  - reflexivity.
  - change (50 - Z.to_nat 1)%nat with 49%nat.
    rewrite drop_app_le by (rewrite entries_length; lia).
    rewrite drop_ge by (rewrite entries_length; lia). reflexivity.
Qed.

Lemma plots_bounded_fifo_witness :
  let c := fun title : string =>
    {| call_figure := {| fig_data := "scatter"; layout_title := None |};
       call_title := Some title; call_source := Some "qc_service";
       call_timestamp := "2024-01-01T00:00:00";
       call_created_at := "2024-01-01T00:00:00" |} in
  let dm := add_calls init (c "first" :: replicate 49 (c "middle") ++ [c "last"]) in
  List.length (latest_plots dm) = 50%nat /\
  get_plot_by_id dm "plot_1" = None /\
  get_latest_plots dm (Some 1) = [entry_of 51 (c "last")].
Proof.
  intros c dm.
  pose proof (plots_bounded_fifo Scenarios.plain_libs
                [ClearPlots] init (c "first"%string) (c "last"%string)
                (replicate 49 (c "middle"%string)) eq_refl) as (_ & _ & H).
  cbv zeta in H. destruct H as (H1 & _ & H3 & _ & H5).
  split; [exact H1|]. split; [exact H3|exact H5].
Defined.

(** *** Plot ids *)

Lemma mk_id_inj (j k : Z) : mk_id j = mk_id k -> j = k.
Proof. apply plot_id_inj. Qed.

Lemma step_counter (lib : libs) (dm : t) (o : op) :
  plot_counter (step lib dm o)
  = plot_counter dm + Z.of_nat (List.length (issued_by dm o)) /\
  List.map fst (issued_by dm o)
  = List.map (fun k => mk_id (plot_counter dm + 1 + Z.of_nat k))
             (seq 0 (List.length (issued_by dm o))).
Proof.
  destruct o; simpl; try (split; [lia|reflexivity]).
  - destruct (set_data_same_plots lib dm data metadata) as (_ & -> & _).
    split; [lia|reflexivity].
  - destruct plot as [f|]; simpl; [|split; [lia|reflexivity]].
    split; [reflexivity|]. unfold mk_id. rewrite Z.add_0_r. reflexivity.
Qed.

Lemma seq_from (a n : nat) : seq a n = List.map (Nat.add a) (seq 0 n).
Proof.
  revert a. induction n as [|n IH]; intros a; [reflexivity|].
  simpl. rewrite Nat.add_0_r. f_equal.
  rewrite (IH (S a)), (IH 1%nat), List.map_map.
  apply List.map_ext. intros k. lia.
Qed.

(** The ids a run issues are numbered from the counter on, without gaps. *)
Lemma issued_ids (lib : libs) (ops : list op) (dm : t) :
  plot_counter (run lib dm ops)
  = plot_counter dm + Z.of_nat (List.length (issued lib dm ops)) /\
  List.map fst (issued lib dm ops)
  = List.map (fun k => mk_id (plot_counter dm + 1 + Z.of_nat k))
             (seq 0 (List.length (issued lib dm ops))).
Proof.
  revert dm. induction ops as [|o ops IH]; intros dm.
  - simpl. split; [lia|reflexivity].
  - destruct (step_counter lib dm o) as [Hc Hi].
    destruct (IH (step lib dm o)) as [Hc' Hi'].
    change (run lib dm (o :: ops)) with (run lib (step lib dm o) ops).
    simpl issued. rewrite length_app, List.map_app, seq_app, List.map_app.
    split; [lia|]. rewrite Hi, Hi'. f_equal.
    rewrite (seq_from (0 + _)), List.map_map.
    apply List.map_ext. intros k. f_equal. lia.
Qed.

Lemma issued_ids_NoDup (lib : libs) (ops : list op) (dm : t) :
  NoDup (List.map fst (issued lib dm ops)).
Proof.
  rewrite (proj2 (issued_ids lib ops dm)).
  apply NoDup_fmap_2; [|apply NoDup_seq].
  intros j k H. apply mk_id_inj in H. lia.
Qed.

Lemma issued_ids_range (lib : libs) (ops : list op) (dm : t) (id : string) :
  In id (List.map fst (issued lib dm ops)) ->
  exists k, id = mk_id k /\
            plot_counter dm < k <= plot_counter (run lib dm ops).
Proof.
  destruct (issued_ids lib ops dm) as [Hc Hi]. rewrite Hi, Hc.
  intros Hin. apply List.in_map_iff in Hin as (k & <- & Hk).
  apply List.in_seq in Hk. eexists. split; [reflexivity|]. lia.
Qed.

Lemma step_entries (lib : libs) (dm : t) (o : op) (e : plot_entry) :
  In e (latest_plots (step lib dm o)) ->
  In e (latest_plots dm) \/ In (plot_id e, plot_figure e) (issued_by dm o).
Proof.
  destruct o; simpl.
  - destruct (set_data_same_plots lib dm data metadata) as (-> & _). auto.
  - destruct plot as [f|]; simpl; [|auto].
    intros Hin.
    assert (Hin' : In e (latest_plots dm ++ [
              {| plot_id := ("plot_" ++ pretty (plot_counter dm + 1))%string;
                 plot_figure := titled_figure title f;
                 plot_title := if truthy (default ""%string title)
                               then default ""%string title
                               else "Untitled"%string;
                 plot_timestamp := timestamp; plot_source := source;
                 plot_created_at := created_at |}])).
    { destruct (_ <? _) in Hin; [|exact Hin].
      apply list_elem_of_In. apply list_elem_of_In in Hin.
      eapply subseteq_drop. exact Hin. }
    apply List.in_app_or in Hin' as [Hold|[<-|[]]]; [left; exact Hold|].
    right. left. reflexivity.
  - intros [].
  - auto.
Qed.

Lemma run_entries (lib : libs) (ops : list op) (dm : t) (e : plot_entry) :
  In e (latest_plots (run lib dm ops)) ->
  In e (latest_plots dm) \/ In (plot_id e, plot_figure e) (issued lib dm ops).
Proof.
  revert dm. induction ops as [|o ops IH]; intros dm Hin; [left; exact Hin|].
  change (run lib dm (o :: ops)) with (run lib (step lib dm o) ops) in Hin.
  simpl issued. destruct (IH _ Hin) as [Hstep|Hlater].
  - destruct (step_entries lib dm o e Hstep) as [Hold|Hnew]; [left; exact Hold|].
    right. apply List.in_or_app. left. exact Hnew.
  - right. apply List.in_or_app. right. exact Hlater.
Qed.

Lemma find_plot_Some (plots : list plot_entry) (id : string) (f : figure) :
  find_plot id plots = Some f ->
  exists e, In e plots /\ plot_id e = id /\ plot_figure e = f.
Proof.
  induction plots as [|e plots IH]; simpl; [discriminate|].
  destruct (String.eqb_spec (plot_id e) id) as [Heq|_].
  - intros [= <-]. exists e. auto.
  - intros H. destruct (IH H) as (e' & Hin & He'). exists e'. auto.
Qed.

Lemma find_plot_None (plots : list plot_entry) (id : string) :
  (forall e, In e plots -> plot_id e <> id) -> find_plot id plots = None.
Proof.
  induction plots as [|e plots IH]; intros H; simpl; [reflexivity|].
  destruct (String.eqb_spec (plot_id e) id) as [Heq|_].
  - destruct (H e (or_introl eq_refl) Heq).
  - apply IH. intros e' He'. apply H. right. exact He'.
Qed.

Lemma run_app (lib : libs) (ops1 ops2 : list op) (dm : t) :
  run lib dm (ops1 ++ ops2) = run lib (run lib dm ops1) ops2.
Proof. apply fold_left_app. Qed.

Lemma step_plot_ids_fresh (lib : libs) (dm : t) (o : op) :
  plot_ids_fresh dm -> plot_ids_fresh (step lib dm o).
Proof.
  intros [Hnd Hle]. destruct o; simpl.
  - destruct (set_data_same_plots lib dm data metadata) as (Hp & Hc & _).
    unfold plot_ids_fresh. rewrite Hp, Hc. auto.
  - destruct plot as [f|]; [|split; assumption].
    unfold add_plot, plot_ids_fresh. simpl.
    set (e := {| plot_id := ("plot_" ++ pretty (plot_counter dm + 1))%string;
                 plot_figure := titled_figure title f;
                 plot_title := if truthy (default ""%string title)
                               then default ""%string title
                               else "Untitled"%string;
                 plot_timestamp := timestamp; plot_source := source;
                 plot_created_at := created_at |}).
    assert (Hall : NoDup (List.map plot_id (latest_plots dm ++ [e])) /\
                   forall x, In x (latest_plots dm ++ [e]) ->
                     exists k, plot_id x = mk_id k /\ k <= plot_counter dm + 1).
    { split.
      - rewrite List.map_app. apply NoDup_app. split; [exact Hnd|].
        split; [|apply NoDup_singleton].
        intros id Hid Hnew. apply list_elem_of_In in Hid.
        apply List.in_map_iff in Hid as (x & <- & Hx).
        destruct (Hle x Hx) as (k & Hk & Hbound).
        apply list_elem_of_In in Hnew. destruct Hnew as [Hnew|[]].
        simpl in Hnew. rewrite Hk in Hnew. apply mk_id_inj in Hnew. lia.
      - intros x Hx. apply List.in_app_or in Hx as [Hx|[<-|[]]].
        + destruct (Hle x Hx) as (k & Hk & Hbound). exists k. split; [exact Hk|lia].
        + exists (plot_counter dm + 1). split; [reflexivity|lia]. }
    destruct Hall as [Hnd' Hle'].
    destruct (_ <? _); [|split; assumption].
    split.
    + rewrite <- skipn_map.
      eapply sublist_NoDup; [exact Hnd'|apply sublist_drop].
    + intros x Hx. apply Hle'. apply list_elem_of_In.
      eapply subseteq_drop. apply list_elem_of_In. exact Hx.
  - split; [apply NoDup_nil_2|intros e []].
  - split; assumption.
Qed.

(** The stores for which the export theorem below is stated: every store
    run from its creation has pairwise distinct plot ids. *)
Lemma run_plot_ids_fresh (lib : libs) (ops : list op) (dm : t) :
  plot_ids_fresh dm -> plot_ids_fresh (run lib dm ops).
Proof.
  revert dm. induction ops as [|o ops IH]; intros dm H; [exact H|].
  apply (IH (step lib dm o)), step_plot_ids_fresh, H.
Qed.

Lemma reachable_plot_ids_NoDup (lib : libs) (ops : list op) :
  NoDup (List.map plot_id (latest_plots (run lib init ops))).
Proof.
  apply (run_plot_ids_fresh lib ops init).
  split; [apply NoDup_nil_2|intros e []].
Qed.

(** C10: over the lifetime of a store the counter never decreases and
    [clear_plots] keeps it; the ids returned by [add_plot] are pairwise
    distinct, whatever operations (clearing included) lie between the
    calls; [get_plot_by_id] returns a figure only for the id that figure
    was stored under; and an id issued before a [clear_plots] is not found
    afterwards, whatever is added later. *)
Theorem plot_ids_unique (lib : libs) (ops ops' : list op) :
  let dm := run lib init ops in
  (forall o, plot_counter dm <= plot_counter (step lib dm o)) /\
  plot_counter (clear_plots dm) = plot_counter dm /\
  NoDup (List.map fst (issued lib init ops)) /\
  (forall id f, get_plot_by_id dm id = Some f ->
                In (id, f) (issued lib init ops)) /\
  (forall id, In id (List.map fst (issued lib init ops)) ->
              get_plot_by_id (run lib init (ops ++ ClearPlots :: ops')) id
              = None).
Proof.
  cbv zeta. split; [|split; [|split; [|split]]].
  - intros o. destruct (step_counter lib (run lib init ops) o) as [-> _]. lia.
  - reflexivity.
  - apply issued_ids_NoDup.
  - intros id f Hfind. apply find_plot_Some in Hfind as (e & Hin & <- & <-).
    destruct (run_entries lib ops init e Hin) as [[]|H]. exact H.
  - intros id Hid. rewrite run_app.
    change (run lib (run lib init ops) (ClearPlots :: ops'))
      with (run lib (clear_plots (run lib init ops)) ops').
    apply issued_ids_range in Hid as (k & -> & Hk).
    apply find_plot_None. intros e Hin Heq.
    destruct (run_entries lib ops' _ e Hin) as [[]|Hnew].
    apply (List.in_map fst) in Hnew. simpl in Hnew.
    apply issued_ids_range in Hnew as (k' & Hk' & Hrange).
    rewrite Heq in Hk'. apply mk_id_inj in Hk'. subst k'.
    simpl plot_counter in Hrange. lia.
Qed.

Example ids_after_clear :
  let fig := Figure {| fig_data := "a"; layout_title := None |} in
  let dm1 := fst (add_plot init fig (Some "QC") None "t1" "t1") in
  let dm2 := fst (add_plot (clear_plots dm1) fig (Some "QC") None "t2" "t2") in
  snd (add_plot init fig (Some "QC") None "t1" "t1") = Some "plot_1" /\
  snd (add_plot (clear_plots dm1) fig (Some "QC") None "t2" "t2")
  = Some "plot_2" /\
  get_plot_by_id dm2 "plot_1" = None.
Proof. repeat split. Qed.

(** ** The dataset *)

Lemma set_data_rejects (lib : libs) (dm : t) (data : data_arg)
    (metadata : option dict) :
  invalid_input data ->
  exists msg,
    set_data lib dm data metadata
    = (with_data None [] None dm, Raises (ValueError msg)).
Proof.
  unfold set_data, set_data_body, invalid_input. destruct data as [| |df].
  - eexists. reflexivity.
  - eexists. reflexivity.
  - intros Hempty.
    assert (Hz : (fst (shape df) =? 0) || (snd (shape df) =? 0) = true).
    { destruct Hempty as [->| ->]; [reflexivity|].
      apply orb_true_r. }
    rewrite Hz. eexists. reflexivity.
Qed.

(** C4: for [None], for an object that is no DataFrame, and for a table
    with no rows or no columns, [set_data] raises [ValueError] (the
    validation error of the store), and [has_data()] is false afterwards,
    whatever the store held before. *)
Theorem set_data_invalid_raises (lib : libs) (dm : t) (data : data_arg)
    (metadata : option dict) :
  invalid_input data ->
  exists e,
    snd (set_data lib dm data metadata) = Raises e /\
    exn_class e = "ValueError"%string /\
    has_data (fst (set_data lib dm data metadata)) = false.
Proof.
  intros Hbad. destruct (set_data_rejects lib dm data metadata Hbad) as [msg ->].
  exists (ValueError msg). repeat split.
Qed.

Lemma set_data_invalid_raises_witness :
  let loaded := fst (set_data Scenarios.plain_libs init
                       (Frame Scenarios.small_frame) None) in
  has_data loaded = true /\
  exists e,
    snd (set_data Scenarios.plain_libs loaded PyNone None) = Raises e /\
    exn_class e = "ValueError"%string /\
    has_data (fst (set_data Scenarios.plain_libs loaded PyNone None)) = false.
Proof.
  cbv zeta. split; [reflexivity|].
  apply set_data_invalid_raises. exact I.
Defined.

Lemma convert_columns_returns (lib : libs) (labels : list string)
    (cols cols' : list column) :
  convert_columns lib labels cols = Returns cols' ->
  cols' = List.map (convert_column lib) cols.
Proof.
  revert cols'. induction cols as [|c cols IH]; intros cols'; simpl.
  - intros [= <-]. reflexivity.
  - destruct (duplicated (name c) labels); [discriminate|].
    assert (Hc : (match col_dtype c with
                  | object =>
                      try_except
                        (bind (to_numeric lib (cells c)) (fun cs =>
                           Returns {| name := name c; col_dtype := numeric;
                                      cells := cs |}))
                        (fun _ => Returns c)
                  | _ => Returns c
                  end) = Returns (convert_column lib c)).
    { unfold convert_column, is_object, to_numeric.
      destruct (col_dtype c); try reflexivity.
      destruct (to_numeric_raises lib (cells c)); reflexivity. }
    rewrite Hc. simpl.
    destruct (convert_columns lib labels cols) as [rest|e]; [|discriminate].
    simpl. intros [= <-]. rewrite (IH rest eq_refl). reflexivity.
Qed.

Lemma convert_column_not_object (lib : libs) (cols : list column) :
  existsb is_object cols = false ->
  List.map (convert_column lib) cols = cols.
Proof.
  induction cols as [|c cols IH]; simpl; [reflexivity|].
  intros H. apply orb_false_elim in H as [Hc Hcols].
  unfold convert_column at 1. rewrite Hc. simpl. rewrite IH by exact Hcols.
  reflexivity.
Qed.

Lemma _create_anndata_data (lib : libs) (dm : t) :
  current_data (_create_anndata lib dm) = current_data dm /\
  current_metadata (_create_anndata lib dm) = current_metadata dm /\
  processing_log (_create_anndata lib dm) = processing_log dm /\
  tool_usage_history (_create_anndata lib dm) = tool_usage_history dm.
Proof.
  unfold _create_anndata. destruct (current_data dm) eqn:E; [|auto].
  destruct (negb (has_data dm)); [auto|].
  destruct (anndata_raises lib _ _); simpl; auto.
Qed.

(** What a successful [set_data] stores. *)
Lemma set_data_returns (lib : libs) (dm dm' : t) (df stored : DataFrame)
    (metadata : option dict) :
  set_data lib dm (Frame df) metadata = (dm', Returns stored) ->
  stored = {| index := index df;
              columns := List.map (fun c => fill_column (convert_column lib c))
                                  (columns df) |} /\
  current_data dm' = Some stored /\
  0 < fst (shape df) /\ 0 < snd (shape df).
Proof.
  unfold set_data, set_data_body.
  destruct (Z.eqb_spec (fst (shape df)) 0) as [|Hr]; [discriminate|].
  destruct (Z.eqb_spec (snd (shape df)) 0) as [|Hc]; [discriminate|].
  simpl orb. cbv iota.
  assert (Hpos : 0 < fst (shape df) /\ 0 < snd (shape df)).
  { unfold shape in *. simpl in *. lia. }
  destruct (if existsb is_object (columns df) then _ else _) as [cols|e] eqn:E;
    simpl; [|discriminate].
  assert (Hcols : cols = List.map (convert_column lib) (columns df)).
  { destruct (existsb is_object (columns df)) eqn:Hobj.
    - apply convert_columns_returns in E. exact E.
    - injection E as <-. symmetry. apply convert_column_not_object, Hobj. }
  intros [= <- <-]. split; [|split; [|exact Hpos]].
  - unfold fillna0. simpl. rewrite Hcols, List.map_map. reflexivity.
  - simpl.
    match goal with |- current_data (_create_anndata _ ?d) = _ =>
      rewrite (proj1 (_create_anndata_data lib d)) end.
    reflexivity.
Qed.

Lemma fill_cell_not_missing (c : cell) : fill_cell c <> Missing.
Proof. destruct c; discriminate. Qed.

Lemma fill_coerce_is_num (lib : libs) (c : cell) :
  is_num (fill_cell (coerce_cell lib c)) = true.
Proof.
  destruct c as [x| |text]; simpl; try reflexivity.
  destruct (parse_number lib text); reflexivity.
Qed.

(** C5, as stated, fails: a column that is not numeric and whose dtype is
    not [object] is not converted, so its cells stay as they are: they
    become neither numbers nor zero. *)
Lemma non_object_column_not_coerced :
  exists dm' stored,
    set_data Scenarios.plain_libs init (Frame Scenarios.datetime_frame) None
    = (dm', Returns stored) /\
    has_data dm' = true /\
    columns stored
    = [ {| name := "collected"; col_dtype := other;
           cells := [Obj "2024-01-01 00:00:00"] |} ] /\
    ~ Forall (fun c => Forall (fun x => is_num x = true) (cells c))
             (columns stored).
Proof.
  eexists _, _. split; [reflexivity|]. repeat split.
  intros H. simpl in H.
  apply Forall_cons in H as [H _]. apply Forall_cons in H as [H _].
  discriminate H.
Qed.

(** C5, amended: when [set_data] succeeds on a table, the table has rows
    and columns, [has_data()] is true and the shape of [get_data_summary()]
    is the shape of the input.  The table stored is the input in which
    every column of dtype [object] whose conversion does not raise has
    become numeric, each of its cells being the number it converts to or a
    missing value, and in which every missing cell has then been filled
    with zero: no cell of the stored table is missing, and every cell of a
    converted column is a number.  Columns of other dtypes are not
    converted. *)
Theorem set_data_valid (lib : libs) (dm dm' : t) (df stored : DataFrame)
    (metadata : option dict) :
  set_data lib dm (Frame df) metadata = (dm', Returns stored) ->
  (0 < fst (shape df) /\ 0 < snd (shape df)) /\
  has_data dm' = true /\
  (exists s, get_data_summary lib dm' = DataLoaded s /\
             summary_shape s = shape df) /\
  columns stored
  = List.map (fun c => fill_column (convert_column lib c)) (columns df) /\
  Forall (fun c => Forall (fun x => x <> Missing) (cells c)) (columns stored) /\
  Forall (fun c =>
            col_dtype c = object -> to_numeric_raises lib (cells c) = false ->
            col_dtype (fill_column (convert_column lib c)) = numeric /\
            Forall (fun x => is_num x = true)
                   (cells (fill_column (convert_column lib c))))
         (columns df).
Proof.
  intros Hset. destruct (set_data_returns _ _ _ _ _ _ Hset) as (-> & Hdata & Hpos).
  assert (Hshape : shape {| index := index df;
                            columns := List.map
                              (fun c => fill_column (convert_column lib c))
                              (columns df) |} = shape df).
  { unfold shape. simpl. rewrite length_map. reflexivity. }
  assert (Hhas : has_data dm' = true).
  { unfold has_data. rewrite Hdata, Hshape.
    destruct Hpos as [Hr Hc].
    apply andb_true_intro. split; apply Z.ltb_lt; assumption. }
  split; [exact Hpos|]. split; [exact Hhas|]. split; [|split; [|split]].
  - unfold get_data_summary. rewrite Hdata, Hhas. simpl negb. cbv iota.
    eexists. split; [reflexivity|]. exact Hshape.
  - reflexivity.
  - simpl. apply List.Forall_map. apply Forall_forall. intros c _. simpl.
    apply List.Forall_map. apply Forall_forall. intros x _.
    apply fill_cell_not_missing.
  - apply Forall_forall. intros c _ Hobj Hok.
    unfold convert_column, is_object. rewrite Hobj, Hok. simpl.
    split; [reflexivity|].
    apply List.Forall_map, List.Forall_map. apply Forall_forall. intros x _.
    apply fill_coerce_is_num.
Qed.

Lemma set_data_valid_witness :
  let r := set_data Scenarios.plain_libs init (Frame Scenarios.small_frame) None in
  has_data (fst r) = true /\
  (exists s, get_data_summary Scenarios.plain_libs (fst r) = DataLoaded s /\
             summary_shape s = (2, 2)) /\
  (exists stored, snd r = Returns stored /\
     columns stored
     = [ {| name := "geneA"; col_dtype := numeric;
            cells := [Num 0%Q; Num 0%Q] |};
         {| name := "geneB"; col_dtype := numeric;
            cells := [Num 1%Q; Num 2%Q] |} ]).
Proof.
  cbv zeta.
  destruct (set_data Scenarios.plain_libs init (Frame Scenarios.small_frame) None)
    as [dm' [stored|e]] eqn:E; [|discriminate E].
  destruct (set_data_valid _ _ _ _ _ _ E) as (_ & Hhas & Hsum & Hcols & _).
  split; [exact Hhas|]. split; [exact Hsum|].
  exists stored. split; [reflexivity|]. rewrite Hcols. reflexivity.
Defined.

(** ** The tool-usage history *)

Lemma set_data_history (lib : libs) (dm : t) (data : data_arg)
    (metadata : option dict) :
  tool_usage_history (fst (set_data lib dm data metadata))
  = tool_usage_history dm.
Proof.
  unfold set_data, set_data_body.
  destruct data as [| |df]; try reflexivity.
  destruct (_ || _); [reflexivity|].
  destruct (if existsb is_object (columns df) then _ else _) as [cols|e];
    simpl; [|reflexivity].
  match goal with |- tool_usage_history (_create_anndata _ ?d) = _ =>
    destruct (_create_anndata_data lib d) as (_ & _ & _ & ->) end.
  reflexivity.
Qed.

Lemma step_history (lib : libs) (dm : t) (o : op) :
  tool_usage_history (step lib dm o) = tool_usage_history dm ++ logged_by o.
Proof.
  destruct o; simpl; rewrite ?app_nil_r; try reflexivity.
  - apply set_data_history.
  - destruct plot; reflexivity.
Qed.

Lemma run_history (lib : libs) (ops : list op) (dm : t) :
  tool_usage_history (run lib dm ops) = tool_usage_history dm ++ logged ops.
Proof.
  revert dm. induction ops as [|o ops IH]; intros dm.
  - simpl. rewrite app_nil_r. reflexivity.
  - change (run lib dm (o :: ops)) with (run lib (step lib dm o) ops).
    rewrite IH, step_history. unfold logged. simpl.
    rewrite <- app_assoc. reflexivity.
Qed.

Lemma logged_app (ops ops' : list op) :
  logged (ops ++ ops') = logged ops ++ logged ops'.
Proof. unfold logged. rewrite List.map_app, List.concat_app. reflexivity. Qed.

Lemma record_view_setitem_other (h : heap) (l : loc) (k : string)
    (v : pyvalue) (r : tool_record) :
  parameters r <> l ->
  record_view (heap_setitem l k v h) r = record_view h r.
Proof.
  intros Hne. unfold record_view, heap_setitem.
  destruct (h !! l); [|reflexivity].
  rewrite lookup_insert_ne by congruence. reflexivity.
Qed.

Lemma heap_copy_fresh (h : heap) (l : loc) :
  h !! snd (heap_copy l h) = None.
Proof.
  unfold heap_copy. simpl. apply not_elem_of_dom. apply is_fresh.
Qed.

(** C2, as stated, fails: the record stores the caller's dictionary
    itself, so a later write of the caller to that dictionary changes what
    the stored record and the technical summary show. *)
Lemma stored_parameters_alias_callers_dict :
  let h : heap :=
    {[ 1%positive := [("resolution"%string, Atom KFloat "0.8" "0.8")] ]} in
  let dm := log_tool_usage init "clustering" 1%positive
              (Some "Cell clustering"%string) "2024-01-01 00:00:00" in
  let h' := heap_setitem 1%positive "resolution" (Atom KFloat "1.2" "1.2") h in
  exists r,
    tool_usage_history dm = [r] /\
    record_view h r <> record_view h' r /\
    get_technical_summary Scenarios.plain_libs h dm
    <> get_technical_summary Scenarios.plain_libs h' dm.
Proof.
  cbv zeta. eexists. split; [reflexivity|]. split.
  - vm_compute. discriminate.
  - vm_compute. discriminate.
Qed.

(** C2, amended: the stored history is the list of the records logged, in
    the order of the calls, and it only grows at its end; the technical
    summary ends with the rendering of these records in that order.  A
    record holds the tool name, description, timestamp and the caller's
    parameters dictionary itself (not a copy of it): what the record shows
    is unchanged by a write to any other dictionary, a copy of the
    parameters included. *)
Theorem tool_usage_in_insertion_order
    (lib : libs) (ops ops' : list op) (h : heap) (l : loc)
    (k : string) (v : pyvalue) :
  let dm := run lib init ops in
  tool_usage_history dm = logged ops /\
  tool_usage_history (run lib init (ops ++ ops')) = logged ops ++ logged ops' /\
  get_technical_summary lib h dm
  = ("# Technical Summary" ++ nl ++ nl ++ data_section lib dm
       ++ processing_section dm ++ tool_usage_section h (logged ops))%string /\
  (forall r, In r (logged ops) -> parameters r <> l ->
             record_view (heap_setitem l k v h) r = record_view h r) /\
  (forall r, In r (logged ops) -> is_Some (h !! parameters r) ->
             let copied := heap_copy (parameters r) h in
             fst copied !! snd copied = h !! parameters r /\
             record_view (heap_setitem (snd copied) k v (fst copied)) r
             = record_view h r).
Proof.
  cbv zeta.
  assert (Hhist : forall os, tool_usage_history (run lib init os) = logged os).
  { intros os. rewrite run_history. reflexivity. }
  split; [apply Hhist|]. split; [rewrite Hhist; apply logged_app|].
  split; [unfold get_technical_summary; rewrite Hhist; reflexivity|].
  split.
  - intros r _ Hne. apply record_view_setitem_other, Hne.
  - intros r _ [d Hd].
    pose proof (heap_copy_fresh h (parameters r)) as Hfresh.
    assert (Hne : parameters r <> snd (heap_copy (parameters r) h)).
    { intros Heq. rewrite <- Heq, Hd in Hfresh. discriminate. }
    split.
    + unfold heap_copy. simpl. rewrite lookup_insert_eq, !Hd. reflexivity.

    + rewrite record_view_setitem_other by exact Hne.
      unfold record_view, heap_copy. simpl.
      rewrite lookup_insert_ne
        by (intros Heq; apply Hne; symmetry; exact Heq).
      reflexivity.
Qed.

Example tool_usage_scenario :
  let h : heap :=
    {[ 1%positive := [("min_genes"%string, Atom KInt "200" "200")] ]} in
  let ops := [LogToolUsage "qc" 1%positive None "t1";
              SetData (Frame Scenarios.small_frame) None;
              LogToolUsage "cluster" 1%positive None "t2";
              ClearPlots;
              LogToolUsage "export" 1%positive None "t3"] in
  List.map tool (tool_usage_history (run Scenarios.plain_libs init ops))
  = ["qc"%string; "cluster"%string; "export"%string].
Proof. reflexivity. Qed.

(** ** The export package *)





Example package_of_three_plots :
  let dm := add_calls
              (fst (set_data Scenarios.libs_one_broken init
                      (Frame Scenarios.small_frame) None))
              [Scenarios.call "hist" "QC"; Scenarios.call "broken" "Bad";
               Scenarios.call "umap" "Clusters"] in
  match create_data_package Scenarios.libs_one_broken ∅ dm "exports"
          "20240101_000000" with
  | Returns (zip, fs) =>
      zip = "exports/data_export_20240101_000000.zip"%string /\
      fs !! "plots/plot_1_QC.png"%string
      = Some (Png {| fig_data := "hist"; layout_title := Some "QC"%string |}) /\
      fs !! "plots/plot_2_Bad.html"%string
      = Some (Html {| fig_data := "broken";
                      layout_title := Some "Bad"%string |}) /\
      fs !! "plots/plot_2_Bad.png"%string = None /\
      match fs !! "plots/index.json"%string with
      | Some (Json plots_index) =>
          List.map idx_id plots_index = ["plot_1"%string; "plot_3"%string]
      | _ => False
      end
  | Raises _ => False
  end.
Proof. vm_compute. repeat split. Qed.






(** * Further properties of the code *)

Import Session.

(** ** The response extractor, continued *)

Section FirstSomeMore.
Context {A B : Type} (body : A -> outcome (option B)).

Lemma first_some_returns (l : list A) :
  Forall (fun x => returns (body x)) l -> returns (first_some body l).
Proof.
  induction 1 as [|x l [o Hx] _ IH]; simpl.
  - eexists. reflexivity.
  - rewrite Hx. destruct o; [eexists; reflexivity|exact IH].
Qed.

Lemma first_some_source (l : list A) (v : B) :
  first_some body l = Returns (Some v) ->
  exists x, In x l /\ body x = Returns (Some v).
Proof.
  induction l as [|x l IH]; simpl; [discriminate|].
  destruct (body x) as [[w|]|e] eqn:Hx; try discriminate.
  - intros [= <-]. exists x. auto.
  - intros H. destruct (IH H) as (y & Hy & Hb). exists y. auto.
Qed.
End FirstSomeMore.

(** X1: when no event yields an answer (in particular for no events at
    all) the extractor returns the sentinel. *)
Theorem extract_without_answer_is_sentinel (events : list event) :
  Forall silent events ->
  _extract_response events = Returns no_response.
Proof.
  intros Hsilent. destruct events as [|ev events]; [reflexivity|].
  unfold _extract_response.
  rewrite (first_some_none event_answer (rev (ev :: events))).
  - reflexivity.
  - apply List.Forall_rev. exact Hsilent.
Qed.

Lemma extract_without_answer_is_sentinel_witness :
  _extract_response
    [checkpoint_event [HumanMessage (CStr "hi")];
     {| type := "task"; payload_of := {| result := []; values_messages := [] |} |};
     task_result_event [AIMessage (CStr "   ")]]
  = Returns "No response generated."%string.
Proof.
  apply extract_without_answer_is_sentinel. repeat constructor.
Defined.

Lemma message_answer_str_returns (m : message) :
  str_content m -> returns (message_answer m).
Proof.
  destruct m as [c|c|c|c]; try (intros _; eexists; reflexivity).
  destruct c as [s|blocks]; [intros _|intros []].
  unfold message_answer. destruct s as [|ch s]; simpl.
  - eexists. reflexivity.
  - destruct (truthy (strip (String ch s))); eexists; reflexivity.
Qed.

Lemma messages_answer_str_returns (msgs : list message) :
  Forall str_content msgs ->
  returns (first_some message_answer (rev msgs)).
Proof.
  intros H. apply first_some_returns, List.Forall_rev.
  eapply List.Forall_impl; [|exact H]. apply message_answer_str_returns.
Qed.

Lemma event_answer_str_returns (ev : event) :
  str_event ev -> returns (event_answer ev).
Proof.
  intros [Hres Hval]. unfold event_answer.
  destruct (String.eqb (type ev) "task_result").
  - apply first_some_returns.
    eapply List.Forall_impl; [|exact Hres].
    intros item Hitem. destruct item as [key [msgs|]|];
      try (eexists; reflexivity).
    simpl. destruct (String.eqb key "messages"); [|eexists; reflexivity].
    apply messages_answer_str_returns, Hitem.
  - destruct (String.eqb (type ev) "checkpoint"); [|eexists; reflexivity].
    destruct (values_messages (payload_of ev)) as [|m msgs] eqn:E;
      [eexists; reflexivity|].
    apply messages_answer_str_returns, Hval.
Qed.

(** X2: the extractor raises only on a message whose content is a list:
    when every message content in the events is a [str], it returns. *)
Theorem extract_str_contents_returns (events : list event) :
  Forall str_event events -> returns (_extract_response events).
Proof.
  intros Hstr. destruct events as [|ev events]; [eexists; reflexivity|].
  unfold _extract_response.
  destruct (first_some_returns event_answer (rev (ev :: events))) as [o Ho].
  - apply List.Forall_rev.
    eapply List.Forall_impl; [|exact Hstr]. apply event_answer_str_returns.
  - rewrite Ho. eexists. reflexivity.
Qed.

Lemma extract_str_contents_returns_witness :
  returns (_extract_response
             [task_result_event [HumanMessage (CStr "hi");
                                 AIMessage (CStr "hello")];
              checkpoint_event [ToolMessage (CStr "42")]]).
Proof.
  apply extract_str_contents_returns.
  repeat constructor.
Defined.

(** [strip] leaves a stripped text alone. *)
Lemma rstrip_cons_nonspace (c : ascii) (s : string) :
  isspace c = false -> rstrip (String c s) = String c (rstrip s).
Proof. intros H. simpl. rewrite H. destruct (rstrip s); reflexivity. Qed.

Lemma rstrip_idem (s : string) : rstrip (rstrip s) = rstrip s.
Proof.
  induction s as [|c s IH]; [reflexivity|]. simpl.
  destruct (rstrip s) as [|c' r] eqn:E.
  - destruct (isspace c) eqn:Hc; [reflexivity|].
    simpl. rewrite Hc. reflexivity.
  - simpl. simpl in IH. rewrite IH. reflexivity.
Qed.

Lemma lstrip_head (s : string) :
  lstrip s = EmptyString \/
  exists c t, lstrip s = String c t /\ isspace c = false.
Proof.
  induction s as [|c s IH]; [left; reflexivity|]. simpl.
  destruct (isspace c) eqn:Hc; [exact IH|]. right. eauto.
Qed.

Lemma strip_idem (s : string) : strip (strip s) = strip s.
Proof.
  unfold strip. destruct (lstrip_head s) as [->|(c & t & -> & Hc)];
    [reflexivity|].
  rewrite (rstrip_cons_nonspace c t Hc). simpl lstrip. rewrite Hc.
  rewrite <- (rstrip_cons_nonspace c t Hc). apply rstrip_idem.
Qed.

Lemma message_answer_stripped (m : message) (a : string) :
  message_answer m = Returns (Some a) -> strip a = a.
Proof.
  destruct m as [c|c|c|c]; try discriminate.
  destruct c as [s|blocks]; unfold message_answer.
  - destruct s as [|ch s]; simpl.
    + intros [= <-]. reflexivity.
    + destruct (truthy (strip (String ch s))); [|discriminate].
      intros [= <-]. apply strip_idem.
  - destruct blocks; simpl; discriminate.
Qed.

Lemma messages_answer_stripped (msgs : list message) (a : string) :
  first_some message_answer msgs = Returns (Some a) -> strip a = a.
Proof.
  intros H. apply first_some_source in H as (m & _ & Hm).
  eapply message_answer_stripped, Hm.
Qed.

Lemma event_answer_stripped (ev : event) (a : string) :
  event_answer ev = Returns (Some a) -> strip a = a.
Proof.
  unfold event_answer. destruct (String.eqb (type ev) "task_result").
  - intros H. apply first_some_source in H as (item & _ & Hitem).
    destruct item as [key [msgs|]|]; try discriminate. simpl in Hitem.
    destruct (String.eqb key "messages"); [|discriminate].
    eapply messages_answer_stripped, Hitem.
  - destruct (String.eqb (type ev) "checkpoint"); [|discriminate].
    destruct (values_messages (payload_of ev)); [discriminate|].
    apply messages_answer_stripped.
Qed.

(** X3: whatever the events, a response that the extractor returns has no
    leading and no trailing whitespace: stripping it changes nothing. *)
Theorem extract_response_is_stripped (events : list event) (r : string) :
  _extract_response events = Returns r -> strip r = r.
Proof.
  destruct events as [|ev events]; [intros [= <-]; reflexivity|].
  unfold _extract_response.
  destruct (first_some event_answer (rev (ev :: events))) as [[a|]|e] eqn:E;
    simpl; try discriminate.
  - intros [= <-]. apply first_some_source in E as (ev' & _ & Hev').
    eapply event_answer_stripped, Hev'.
  - intros [= <-]. reflexivity.
Qed.

Lemma extract_response_is_stripped_witness :
  strip "hello there" = "hello there"%string.
Proof.
  apply (extract_response_is_stripped
           [task_result_event [AIMessage (CStr "  hello there  ")]]).
  reflexivity.
Defined.

(** ** The orchestrator, continued *)

(** X4: a non-streaming turn extends the conversation history by the
    user's message and, when the turn succeeds with a response that is not
    empty, by the assistant's response after it; a failed turn, or one whose
    response is the empty string, leaves only the user's message.  The
    session id is kept and the artifact store is the one the engine left. *)
Theorem query_extends_history
    (c : AgentClient) (user_input : string) (run : engine_run)
    (start_time end_time : Z) :
  exists c' r,
    query c user_input false run start_time end_time = Returns (c', Result r) /\
    get_conversation_history c'
    = get_conversation_history c
      ++ ("user"%string, CStr user_input)
         :: match r with
            | Success response _ _ _ _ _ =>
                if truthy response
                then [("assistant"%string, CStr response)] else []
            | Failure _ _ _ => []
            end /\
    session_id c' = session_id c /\
    data_manager c' = store_after run (data_manager c).
Proof.
  unfold query, _run_query, _run_query_body, collect_events,
    get_conversation_history.
  destruct (raised run) as [e|]; simpl.
  - eexists _, _. split; [reflexivity|]. simpl.
    rewrite List.map_app. auto.
  - destruct (_extract_response (emitted run)) as [response|e]; simpl.
    + eexists _, _. split; [reflexivity|]. simpl.
      destruct (truthy response); simpl; rewrite !List.map_app;
        simpl; rewrite <- ?app_assoc; auto.
    + eexists _, _. split; [reflexivity|]. simpl.
      rewrite List.map_app. auto.
Qed.



(** ** Streaming *)





Lemma last_ai_content_found (later : list message) (c : content)
    (earlier : list message) :
  Forall (fun m => match m with
                   | AIMessage c' => content_truthy c' = false
                   | _ => True
                   end) later ->
  content_truthy c = true ->
  last_ai_content (later ++ AIMessage c :: earlier) = Some c.
Proof.
  intros Hlater Hc. induction Hlater as [|m later Hm _ IH]; simpl.
  - rewrite Hc. reflexivity.
  - destruct m as [c'|c'|c'|c']; try exact IH. rewrite Hm. exact IH.
Qed.

(** X7: an assistant message with content hides the result fields: when
    the node output holds assistant messages with content, what is
    displayed is the content of the last of them, whatever the fields
    [analysis_results], [next] and [data_context] hold. *)
Theorem event_content_prefers_last_assistant
    (before after : list message) (c : content)
    (a n d : option field_value) :
  content_truthy c = true ->
  Forall (fun m => match m with
                   | AIMessage c' => content_truthy c' = false
                   | _ => True
                   end) after ->
  _extract_event_content (NodeDict (Some (before ++ AIMessage c :: after)) a n d)
  = Some c.
Proof.
  intros Hc Hafter. simpl. rewrite rev_app_distr. simpl.
  rewrite <- app_assoc. simpl.
  rewrite (last_ai_content_found (rev after) c (rev before)).
  - reflexivity.
  - apply List.Forall_rev. exact Hafter.
  - exact Hc.
Qed.

Lemma event_content_prefers_last_assistant_witness :
  _extract_event_content
    (NodeDict (Some ([AIMessage (CStr "draft")]
                       ++ AIMessage (CStr "final")
                       :: [ToolMessage (CStr "rows: 3"); AIMessage (CStr "")]))
              (Some {| fv_truthy := true; fv_str := "table" |}) None None)
  = Some (CStr "final").
Proof.
  apply event_content_prefers_last_assistant.
  - reflexivity.
  - repeat constructor.
Defined.

Lemma node_records_shown (timestamp : string) (item : string * node_output) :
  Forall shown_record (node_records timestamp item) /\
  (List.length (node_records timestamp item) <= 1)%nat.
Proof.
  unfold node_records. destruct (_extract_event_content (snd item)) as [c|];
    [|split; [constructor|simpl; lia]].
  destruct (content_truthy c) eqn:Hc; [|split; [constructor|simpl; lia]].
  split; [repeat constructor; exact Hc|simpl; lia].
Qed.

Lemma concat_imap_Forall {A B} (P : B -> Prop) (l : list A)
    (g : nat -> A -> list B) :
  (forall i x, Forall P (g i x)) -> Forall P (List.concat (imap g l)).
Proof.
  revert g. induction l as [|x l IH]; intros g Hg; simpl; [constructor|].
  apply Forall_app. split; [apply Hg|]. apply IH. intros i y. apply Hg.
Qed.

Lemma concat_imap_length {A B} (w : A -> nat) (l : list A)
    (g : nat -> A -> list B) :
  (forall i x, (List.length (g i x) <= w x)%nat) ->
  (List.length (List.concat (imap g l)) <= sum_list (List.map w l))%nat.
Proof.
  revert g. induction l as [|x l IH]; intros g Hg; simpl; [lia|].
  rewrite length_app. specialize (IH (g ∘ S)).
  pose proof (Hg 0%nat x). pose proof (IH (fun i y => Hg (S i) y)). lia.
Qed.

Lemma sum_list_ones {A} (l : list A) :
  sum_list (List.map (fun _ => 1%nat) l) = List.length l.
Proof. induction l as [|x l IH]; simpl; [reflexivity|]. rewrite IH. reflexivity. Qed.

Lemma sum_list_lengths {A} (ls : list (list A)) :
  sum_list (List.map (@List.length A) ls) = List.length (List.concat ls).
Proof.
  induction ls as [|l ls IH]; simpl; [reflexivity|].
  rewrite length_app, IH. reflexivity.
Qed.

(** X8: a stream consumed to its end is a sequence of records of displayed
    content, none of them empty and at most one for each node output the
    engine emitted, followed by exactly one closing record: the completion
    record when the engine finishes, the error record with [str(e)] when it
    raises. *)
Theorem stream_ends_with_one_closing_record
    (c : AgentClient) (run : stream_run) (clock : nat -> nat -> string)
    (start_time end_time : Z) :
  exists shown,
    _stream_query c run clock start_time end_time
    = shown
      ++ [match stream_raised run with
          | None => CompleteRecord (end_time - start_time) (session_id c)
          | Some e => ErrorRecord (exn_message e) (session_id c)
          end] /\
    Forall shown_record shown /\
    (List.length shown <= List.length (List.concat (stream_emitted run)))%nat.
Proof.
  eexists. split; [reflexivity|]. split.
  - apply concat_imap_Forall. intros i event.
    apply concat_imap_Forall. intros j item. apply node_records_shown.
  - rewrite <- (sum_list_lengths (stream_emitted run)).
    apply (concat_imap_length (@List.length _)). intros i event.
    rewrite <- (sum_list_ones event).
    apply (concat_imap_length (fun _ => 1%nat)). intros j item.
    apply node_records_shown.
Qed.

Example stream_of_two_events :
  _stream_query
    {| session_id := "s1"; messages := []; data_manager := init |}
    {| stream_emitted :=
         [[("supervisor"%string,
            NodeDict None None
              (Some {| fv_truthy := true; fv_str := "analyst" |}) None)];
          [("analyst"%string,
            NodeDict (Some [HumanMessage (CStr "hi")]) None None None);
           ("writer"%string,
            NodeDict (Some [AIMessage (CStr "done")]) None None None)]];
       stream_raised := Some (Exception "RuntimeError" "timeout") |}
    (fun i j => "t"%string) 0 9
  = [StreamRecord "supervisor" (CStr "next: analyst") "t";
     StreamRecord "writer" (CStr "done") "t";
     ErrorRecord "timeout" "s1"].
Proof. reflexivity. Qed.

(** ** Reading a file of the workspace *)

Lemma read_in_dirs_first (fs : filesystem) (filename : string)
    (skipped : list string) (dir : string) (rest : list string)
    (r : outcome string) :
  Forall (fun d => read_text fs (join d filename) = None) skipped ->
  read_text fs (join dir filename) = Some r ->
  read_in_dirs fs (skipped ++ dir :: rest) filename = Some (read_result r).
Proof.
  intros Hskipped Hdir. induction Hskipped as [|d skipped Hd _ IH]; simpl.
  - rewrite Hdir. destruct r; reflexivity.
  - rewrite Hd. exact IH.
Qed.

Lemma read_in_dirs_none (fs : filesystem) (filename : string)
    (dirs : list string) :
  Forall (fun d => read_text fs (join d filename) = None) dirs ->
  read_in_dirs fs dirs filename = None.
Proof.
  induction 1 as [|d dirs Hd _ IH]; simpl; [reflexivity|].
  rewrite Hd. exact IH.
Qed.

(** X9: for a relative name, the workspace root and then the search
    directories are tried in order, and the first location that holds a
    regular file of that name decides: [read_file] returns its text, or,
    when reading it raises, the error message, without trying the
    locations after it. *)
Theorem read_file_first_location_decides
    (fs : filesystem) (workspace_path : string) (search_dirs : list string)
    (filename : string) (skipped : list string) (path : string)
    (rest : list string) (r : outcome string) :
  is_absolute filename = false ->
  join workspace_path filename
    :: List.map (fun dir => join dir filename) search_dirs
  = skipped ++ path :: rest ->
  Forall (fun q => read_text fs q = None) skipped ->
  read_text fs path = Some r ->
  read_file fs workspace_path search_dirs filename = read_result r.
Proof.
  intros Hrel Hsplit Hskipped Hpath. unfold read_file. rewrite Hrel.
  destruct skipped as [|root skipped]; simpl in Hsplit.
  - injection Hsplit as <- _. rewrite Hpath. destruct r; reflexivity.
  - injection Hsplit as <- Hdirs.
    apply Forall_cons in Hskipped as [Hroot Hskipped]. rewrite Hroot.
    apply List.map_eq_app in Hdirs as (dirs1 & dirs2 & -> & <- & Hdirs2).
    apply List.map_eq_cons in Hdirs2 as (dir & dirs3 & -> & <- & _).
    rewrite (read_in_dirs_first fs filename dirs1 dir dirs3 r).
    + reflexivity.
    + apply List.Forall_map in Hskipped. exact Hskipped.
    + exact Hpath.
Qed.

Lemma read_file_first_location_decides_witness :
  read_file sample_fs "ws" sample_dirs "notes.txt"
  = "Error reading file: denied"%string.
Proof.
  apply (read_file_first_location_decides sample_fs "ws" sample_dirs
           "notes.txt" ["ws/notes.txt"%string; "ws/data/notes.txt"%string]
           "ws/plots/notes.txt" ["ws/exports/notes.txt"%string]
           (Raises (Exception "PermissionError" "denied"))).
  - reflexivity.
  - reflexivity.
  - repeat constructor.
  - reflexivity.
Defined.

Lemma match_ignoring_case_none (fs : filesystem) (dir filename : string)
    (names : list string) :
  Forall (fun name => read_text fs (join dir name) = None \/
                      lower name <> lower filename) names ->
  match_ignoring_case fs dir names (lower filename) = None.
Proof.
  induction 1 as [|name names Hname _ IH]; simpl; [reflexivity|].
  destruct Hname as [->|Hne]; [exact IH|].
  destruct (read_text fs (join dir name)); [|exact IH].
  destruct (String.eqb_spec (lower name) (lower filename)); [contradiction|].
  exact IH.
Qed.



Ltac names_differ :=
  repeat (apply List.Forall_cons;
          [first [left; reflexivity
                 |right; let H := fresh in intros H; vm_compute in H;
                  discriminate H]|]);
  apply List.Forall_nil.


Lemma match_ignoring_case_found (fs : filesystem) (dir filename : string)
    (before after : list string) (name : string) (r : outcome string) :
  Forall (fun n => read_text fs (join dir n) = None \/
                   lower n <> lower filename) before ->
  lower name = lower filename ->
  read_text fs (join dir name) = Some r ->
  match_ignoring_case fs dir (before ++ name :: after) (lower filename)
  = Some (read_result r).
Proof.
  intros Hbefore Hname Hread.
  induction Hbefore as [|n before Hn _ IH]; simpl.
  - rewrite Hread, Hname, String.eqb_refl. destruct r; reflexivity.
  - destruct Hn as [->|Hne]; [exact IH|].
    destruct (read_text fs (join dir n)); [|exact IH].
    destruct (String.eqb_spec (lower n) (lower filename)); [contradiction|].
    exact IH.
Qed.

(** X11: when no location holds the name as it is written, the search
    directories are searched again ignoring case: in the first directory
    that exists, can be listed and holds a regular file whose name equals
    the one asked for up to case, the first such file (in the order of the
    listing) is read. *)
Theorem read_file_ignores_case
    (fs : filesystem) (workspace_path : string)
    (earlier : list string) (dir : string) (later : list string)
    (filename : string) (before after : list string) (name : string)
    (r : outcome string) :
  is_absolute filename = false ->
  read_text fs (join workspace_path filename) = None ->
  Forall (fun d => read_text fs (join d filename) = None)
         (earlier ++ dir :: later) ->
  Forall (no_match_ignoring_case fs filename) earlier ->
  dir_exists fs dir = true ->
  glob_star fs dir = Returns (before ++ name :: after) ->
  Forall (fun n => read_text fs (join dir n) = None \/
                   lower n <> lower filename) before ->
  lower name = lower filename ->
  read_text fs (join dir name) = Some r ->
  read_file fs workspace_path (earlier ++ dir :: later) filename
  = read_result r.
Proof.
  intros Hrel Hroot Hexact Hearlier Hdir Hglob Hbefore Hname Hread.
  unfold read_file.
  rewrite Hrel, Hroot, (read_in_dirs_none fs filename _ Hexact).
  assert (Hsearch : search_ignoring_case fs (earlier ++ dir :: later)
                      (lower filename) = Some (read_result r)).
  { induction Hearlier as [|d earlier Hd _ IH]; simpl.
    - rewrite Hdir, Hglob. simpl.
      rewrite (match_ignoring_case_found fs dir filename before after name r
                 Hbefore Hname Hread).
      reflexivity.
    - apply Forall_cons in Hexact as [_ Hexact].
      rewrite <- (IH Hexact).
      destruct Hd as [->|[[e ->]|(names & -> & Hnames)]]; simpl.
      + reflexivity.
      + destruct (dir_exists fs d); reflexivity.
      + rewrite (match_ignoring_case_none fs d filename names Hnames).
        destruct (dir_exists fs d); reflexivity. }
  rewrite Hsearch. reflexivity.
Qed.

Lemma read_file_ignores_case_witness :
  read_file sample_fs "ws" ([] ++ "ws/data"%string :: ["ws/plots"%string;
                                                        "ws/exports"%string])
            "counts.csv"
  = "a,b"%string.
Proof.
  apply (read_file_ignores_case sample_fs "ws" [] "ws/data"
           ["ws/plots"%string; "ws/exports"%string] "counts.csv"
           ["old"%string; "readme"%string] [] "Counts.CSV" (Returns "a,b"%string)).
  - reflexivity.
  - reflexivity.
  - repeat constructor.
  - constructor.
  - reflexivity.
  - reflexivity.
  - names_differ.
  - reflexivity.
  - reflexivity.
Defined.

(** ** Saving the plots to the workspace *)

Lemma save_plot_spec (lib : libs) (plots_dir : string) (saved : list string)
    (fs : staging) (p : plot_entry) :
  (save_plot lib plots_dir (saved, fs) p).1
  = saved ++ saved_paths lib plots_dir p /\
  (forall k, is_Some (fs !! k) ->
             is_Some ((save_plot lib plots_dir (saved, fs) p).2 !! k)) /\
  (forall path, In path (saved_paths lib plots_dir p) ->
                is_Some ((save_plot lib plots_dir (saved, fs) p).2 !! path)).
Proof.
  unfold save_plot, saved_paths.
  destruct (write_html_raises lib (plot_figure p)); simpl.
  { rewrite app_nil_r. split; [reflexivity|]. split; [auto|intros path []]. }
  destruct (write_image_raises lib (plot_figure p)); simpl.
  - split; [reflexivity|]. split.
    + intros k Hk. apply lookup_insert_is_Some'. auto.
    + intros path [<-|[]]. apply lookup_insert_is_Some'. auto.
  - split; [rewrite <- app_assoc; reflexivity|]. split.
    + intros k Hk. rewrite !lookup_insert_is_Some'. auto.
    + intros path [<-|[<-|[]]]; rewrite !lookup_insert_is_Some'; auto.
Qed.

Lemma save_plots_fold (lib : libs) (plots_dir : string)
    (plots : list plot_entry) (saved : list string) (fs : staging) :
  (fold_left (save_plot lib plots_dir) plots (saved, fs)).1
  = saved ++ List.concat (List.map (saved_paths lib plots_dir) plots) /\
  (forall k, is_Some (fs !! k) ->
     is_Some ((fold_left (save_plot lib plots_dir) plots (saved, fs)).2 !! k)) /\
  (forall path,
     In path (List.concat (List.map (saved_paths lib plots_dir) plots)) ->
     is_Some ((fold_left (save_plot lib plots_dir) plots (saved, fs)).2
              !! path)).
Proof.
  revert saved fs. induction plots as [|p plots IH]; intros saved fs.
  { simpl. rewrite app_nil_r.
    split; [reflexivity|]. split; [auto|intros path []]. }
  change (fold_left (save_plot lib plots_dir) (p :: plots) (saved, fs))
    with (fold_left (save_plot lib plots_dir) plots
            (save_plot lib plots_dir (saved, fs) p)).
  destruct (save_plot_spec lib plots_dir saved fs p) as (Hs & Hk & Hp).
  destruct (save_plot lib plots_dir (saved, fs) p) as [saved' fs'] eqn:E.
  simpl in Hs, Hk, Hp. subst saved'.
  destruct (IH (saved ++ saved_paths lib plots_dir p) fs') as (Hs' & Hk' & Hp').
  simpl List.map. simpl List.concat.
  split; [rewrite Hs', <- app_assoc; reflexivity|]. split.
  - intros k Hin. apply Hk', Hk, Hin.
  - intros path Hin. apply List.in_app_or in Hin as [Hin|Hin].
    + apply Hk', Hp, Hin.
    + apply Hp', Hin.
Qed.

(** X12: [save_plots_to_workspace] reports, plot by plot and in the order
    of the collection, the interactive file of every plot whose interactive
    rendering succeeds, followed by its static file when the static
    rendering succeeds too: a static rendering that raises costs only the
    static file.  Every path it reports has been written, and no file of
    the workspace is removed. *)
Theorem save_plots_reports_what_it_wrote
    (lib : libs) (dm : t) (plots_dir : string) (fs : staging) :
  (save_plots_to_workspace lib dm plots_dir fs).1
  = List.concat (List.map (saved_paths lib plots_dir) (latest_plots dm)) /\
  (forall path, In path (save_plots_to_workspace lib dm plots_dir fs).1 ->
     is_Some ((save_plots_to_workspace lib dm plots_dir fs).2 !! path)) /\
  (forall k, is_Some (fs !! k) ->
     is_Some ((save_plots_to_workspace lib dm plots_dir fs).2 !! k)).
Proof.
  unfold save_plots_to_workspace.
  destruct (latest_plots dm) as [|p plots] eqn:E.
  { simpl. split; [reflexivity|]. split; [intros path []|auto]. }
  destruct (save_plots_fold lib plots_dir (p :: plots) [] fs) as (Hs & Hk & Hp).
  rewrite Hs. simpl List.app. split; [reflexivity|]. split; assumption.
Qed.

Example save_plots_keeps_html_without_png :
  let dm := add_calls init [Scenarios.call "hist" "QC";
                            Scenarios.call "broken" "Bad plot"] in
  (save_plots_to_workspace Scenarios.libs_one_broken dm "ws/plots" ∅).1
  = ["ws/plots/plot_1_QC.html"%string; "ws/plots/plot_1_QC.png"%string;
     "ws/plots/plot_2_Bad_plot.html"%string].
Proof. vm_compute. reflexivity. Qed.

(** ** File names of the exported plots *)

Lemma append_nil_r (s : string) : (s ++ "")%string = s.
Proof.
  induction s as [|c s IH]; [reflexivity|].
  change (String c (s ++ "")%string = String c s). f_equal. exact IH.
Qed.

Lemma append_assoc (a b c : string) :
  ((a ++ b) ++ c)%string = (a ++ (b ++ c))%string.
Proof.
  induction a as [|x a IH]; [reflexivity|].
  change (String x ((a ++ b) ++ c)%string = String x (a ++ (b ++ c))%string).
  f_equal. exact IH.
Qed.

Lemma string_filter_forallb (keep : ascii -> bool) (s : string) :
  string_forallb keep (string_filter keep s) = true.
Proof.
  induction s as [|c s IH]; [reflexivity|]. simpl.
  destruct (keep c) eqn:Hc; [simpl; rewrite Hc|]; exact IH.
Qed.

Lemma rstrip_forallb (p : ascii -> bool) (s : string) :
  string_forallb p s = true -> string_forallb p (rstrip s) = true.
Proof.
  induction s as [|c s IH]; [reflexivity|]. simpl.
  intros H. apply andb_prop in H as [Hc Hs]. specialize (IH Hs).
  destruct (rstrip s) as [|c' r].
  - destruct (isspace c); [reflexivity|]. simpl. rewrite Hc. reflexivity.
  - simpl. rewrite Hc. exact IH.
Qed.

Lemma keep_to_slug (c : ascii) :
  keep_in_title c = true ->
  slug_char (if Ascii.eqb c " " then "_"%char else c) = true.
Proof.
  unfold keep_in_title, slug_char.
  destruct (Ascii.eqb c " ") eqn:Hsp; [reflexivity|].
  rewrite orb_false_r. auto.
Qed.

Lemma replace_space_slug (s : string) :
  string_forallb keep_in_title s = true ->
  string_forallb slug_char (replace_char " " "_" s) = true.
Proof.
  induction s as [|c s IH]; [reflexivity|]. simpl.
  intros H. apply andb_prop in H as [Hc Hs].
  rewrite (keep_to_slug c Hc). exact (IH Hs).
Qed.

(** X13: whatever the title of a plot, the base name of its exported files
    is its id, followed, when anything of the title is left, by an
    underscore and characters of the title that are letters, digits,
    underscores or hyphens only: no space, dot or path separator of the
    title reaches the file name. *)
Theorem filename_base_is_a_slug (p : plot_entry) :
  exists slug,
    filename_base p = (plot_id p ++ slug)%string /\
    string_forallb slug_char slug = true /\
    slug_char "/" = false /\ slug_char "." = false /\ slug_char " " = false.
Proof.
  assert (Hsafe : string_forallb slug_char (safe_title (plot_title p)) = true).
  { unfold safe_title. apply replace_space_slug, rstrip_forallb,
      string_filter_forallb. }
  unfold filename_base. destruct (truthy (safe_title (plot_title p))).
  - exists ("_" ++ safe_title (plot_title p))%string.
    split; [reflexivity|]. split; [exact Hsafe|repeat split].
  - exists ""%string. split; [|split; [reflexivity|repeat split]].
    symmetry. apply append_nil_r.
Qed.

Example filename_base_of_path_like_title :
  filename_base (entry_of 7 (Scenarios.call "x" "../../etc: a.b  "))
  = "plot_7_etc_ab"%string.
Proof. reflexivity. Qed.

(** ** Plots, continued *)





(** X15: for a positive [n], [get_latest_plots(n)] is the end of the
    collection, of [n] entries or of all of them when there are fewer; for a
    negative [n] it is the collection without its first [-n] entries. *)
Theorem get_latest_plots_slices (dm : t) (n : Z) :
  (0 < n ->
   exists older,
     latest_plots dm = older ++ get_latest_plots dm (Some n) /\
     List.length (get_latest_plots dm (Some n))
     = Nat.min (Z.to_nat n) (List.length (latest_plots dm))) /\
  (n < 0 ->
   get_latest_plots dm (Some n) = drop (Z.to_nat (- n)) (latest_plots dm)).
Proof.
  split; intros Hn.
  - rewrite get_latest_plots_last by exact Hn.
    exists (take (List.length (latest_plots dm) - Z.to_nat n) (latest_plots dm)).
    split; [symmetry; apply take_drop|]. rewrite length_drop. lia.
  - unfold get_latest_plots, slice_from.
    destruct (Z.ltb_spec (- n) 0) as [?|_]; [lia|].
    destruct (Z.le_gt_cases (- n) (Z.of_nat (List.length (latest_plots dm))))
      as [Hle|Hgt].
    + rewrite Z.min_l by exact Hle. reflexivity.
    + rewrite Z.min_r by lia. rewrite Nat2Z.id.
      rewrite !drop_ge by lia. reflexivity.
Qed.

(** ** The dataset, continued *)

Lemma with_data_fields (d : option DataFrame) (m : list (string * pyvalue))
    (a : option AnnData) (dm : t) :
  latest_plots (with_data d m a dm) = latest_plots dm /\
  plot_counter (with_data d m a dm) = plot_counter dm /\
  tool_usage_history (with_data d m a dm) = tool_usage_history dm.
Proof. repeat split. Qed.

Lemma set_data_body_depends_on_input (lib : libs) (dm1 dm2 : t)
    (data : data_arg) (metadata : option (list (string * pyvalue))) :
  match set_data_body lib dm1 data metadata,
        set_data_body lib dm2 data metadata with
  | Returns (dm1', stored1), Returns (dm2', stored2) =>
      stored1 = stored2 /\
      current_data dm1' = current_data dm2' /\
      current_metadata dm1' = current_metadata dm2' /\
      adata dm1' = adata dm2' /\
      current_metadata dm1' = default [] metadata /\
      processing_log dm1'
      = processing_log dm1 ++ [data_loaded_line stored1]
  | Raises e1, Raises e2 => e1 = e2
  | _, _ => False
  end.
Proof.
  unfold set_data_body. destruct data as [| |df]; try reflexivity.
  destruct (Z.eqb_spec (fst (shape df)) 0) as [|Hr]; [reflexivity|].
  destruct (Z.eqb_spec (snd (shape df)) 0) as [|Hc]; [reflexivity|].
  simpl orb. cbv iota.
  destruct (if existsb is_object (columns df) then _ else _) as [cols|e] eqn:E;
    simpl; [|reflexivity].
  assert (Hcols : cols = List.map (convert_column lib) (columns df)).
  { destruct (existsb is_object (columns df)) eqn:Hobj.
    - apply convert_columns_returns in E. exact E.
    - injection E as <-. symmetry. apply convert_column_not_object, Hobj. }
  unfold _create_anndata, has_data. simpl.
  destruct (_ && _) eqn:Hb; simpl.
  - destruct (anndata_raises lib _ _); simpl; auto 10.
  - exfalso. apply andb_false_iff in Hb. rewrite !Z.ltb_ge in Hb.
    rewrite Hcols, !List.length_map in Hb. unfold shape in Hr, Hc.
    simpl in Hr, Hc. lia.
Qed.

(** X16: [set_data] replaces the dataset as a whole: whether it succeeds
    or raises, the outcome and the data, metadata and derived matrix it
    leaves depend on its arguments only, not on what the store held; the
    metadata becomes the one passed ([{}] for [None]); and the plots, the
    plot counter, the maximum and the tool-usage history are never
    touched.  A success appends exactly one line to the processing log, a
    failure none. *)
Theorem set_data_replaces_the_dataset
    (lib : libs) (dm1 dm2 : t) (data : data_arg)
    (metadata : option (list (string * pyvalue))) :
  let r1 := set_data lib dm1 data metadata in
  let r2 := set_data lib dm2 data metadata in
  r1.2 = r2.2 /\
  current_data r1.1 = current_data r2.1 /\
  current_metadata r1.1 = current_metadata r2.1 /\
  adata r1.1 = adata r2.1 /\
  latest_plots r1.1 = latest_plots dm1 /\
  plot_counter r1.1 = plot_counter dm1 /\
  max_plots_history r1.1 = max_plots_history dm1 /\
  tool_usage_history r1.1 = tool_usage_history dm1 /\
  match r1.2 with
  | Returns stored =>
      current_metadata r1.1 = default [] metadata /\
      processing_log r1.1 = processing_log dm1 ++ [data_loaded_line stored]
  | Raises _ =>
      current_metadata r1.1 = [] /\ processing_log r1.1 = processing_log dm1
  end.
Proof.
  cbv zeta.
  destruct (set_data_same_plots lib dm1 data metadata) as (Hp & Hc & Hm).
  pose proof (set_data_history lib dm1 data metadata) as Hh.
  rewrite Hp, Hc, Hm, Hh.
  pose proof (set_data_body_depends_on_input lib dm1 dm2 data metadata) as H.
  unfold set_data.
  destruct (set_data_body lib dm1 data metadata) as [[dm1' s1]|e1];
    destruct (set_data_body lib dm2 data metadata) as [[dm2' s2]|e2];
    simpl; [|destruct H|destruct H|].
  - destruct H as (-> & Hd & Hmd & Ha & Hmeta & Hlog). auto 12.
  - subst. auto 12.
Qed.

Example set_data_failure_clears_previous :
  let loaded := (set_data Scenarios.plain_libs init
                   (Frame Scenarios.small_frame)
                   (Some [("organism"%string, Atom KStr "Homo" "'Homo'")])).1 in
  let after := (set_data Scenarios.plain_libs loaded NotDataFrame None).1 in
  current_metadata loaded <> [] /\
  current_data after = None /\ current_metadata after = [] /\
  adata after = None /\
  processing_log after = processing_log loaded.
Proof. cbv zeta. split; [discriminate|repeat split]. Qed.

Lemma convert_columns_duplicate (lib : libs) (labels : list string)
    (cols : list column) (c : column) :
  In c cols -> duplicated (name c) labels = true ->
  exists e, convert_columns lib labels cols = Raises e /\
            exn_class e = "AttributeError"%string.
Proof.
  induction cols as [|x cols IH]; intros Hin Hdup; [destruct Hin|]. simpl.
  destruct (duplicated (name x) labels) eqn:Hx; [eexists; split; reflexivity|].
  destruct Hin as [->|Hin]; [congruence|].
  destruct (IH Hin Hdup) as (e & -> & He).
  exists e. split; [|exact He].
  destruct (col_dtype x); simpl; try reflexivity.
  destruct (to_numeric lib (cells x)); reflexivity.
Qed.

(** X17: a table that has a column of dtype [object] and a column label
    that occurs twice cannot be set: the conversion loop reads the [dtype]
    of [data[col]], which is a DataFrame for such a label, so [set_data]
    raises [AttributeError] and leaves the store without data, whatever it
    held before. *)
Theorem set_data_duplicate_label_raises
    (lib : libs) (dm : t) (df : DataFrame)
    (metadata : option (list (string * pyvalue))) (c : column) :
  0 < fst (shape df) ->
  existsb is_object (columns df) = true ->
  In c (columns df) ->
  duplicated (name c) (List.map name (columns df)) = true ->
  exists e,
    (set_data lib dm (Frame df) metadata).2 = Raises e /\
    exn_class e = "AttributeError"%string /\
    has_data (set_data lib dm (Frame df) metadata).1 = false.
Proof.
  intros Hrows Hobj Hin Hdup. unfold set_data, set_data_body.
  assert (Hcols : 0 < snd (shape df)).
  { unfold shape. simpl. destruct (columns df); [destruct Hin|].
    rewrite length_cons. lia. }
  destruct (Z.eqb_spec (fst (shape df)) 0) as [|_]; [lia|].
  destruct (Z.eqb_spec (snd (shape df)) 0) as [|_]; [lia|].
  simpl orb. cbv iota. rewrite Hobj.
  destruct (convert_columns_duplicate lib _ _ c Hin Hdup) as (e & -> & He).
  simpl. exists e. repeat split. exact He.
Qed.

Lemma set_data_duplicate_label_raises_witness :
  let df := {| index := ["s1"%string];
               columns := [ {| name := "gene"; col_dtype := object;
                               cells := [Obj "1"] |};
                            {| name := "gene"; col_dtype := numeric;
                               cells := [Num 2%Q] |} ] |} in
  exists e,
    (set_data Scenarios.plain_libs init (Frame df) None).2 = Raises e /\
    exn_class e = "AttributeError"%string /\
    has_data (set_data Scenarios.plain_libs init (Frame df) None).1 = false.
Proof.
  intros df.
  apply (set_data_duplicate_label_raises Scenarios.plain_libs init df None
           {| name := "gene"; col_dtype := numeric; cells := [Num 2%Q] |}).
  - reflexivity.
  - reflexivity.
  - right. left. reflexivity.
  - reflexivity.
Defined.






(** X19: after a successful [set_data] the derived matrix is built from
    the stored table and the scalar entries of the metadata; when building
    it raises it is the placeholder, and it is absent only when building
    the placeholder raises too.  None of this changes [has_data]. *)
Theorem set_data_derived_matrix
    (lib : libs) (dm dm' : t) (df stored : DataFrame)
    (metadata : option (list (string * pyvalue))) :
  set_data lib dm (Frame df) metadata = (dm', Returns stored) ->
  has_data dm' = true /\
  adata dm'
  = if anndata_raises lib stored (default [] metadata)
    then (if dummy_anndata_raises lib then None else Some DummyAnnData)
    else Some (AnnDataOf stored
                 (List.filter (fun kv => is_scalar kv.2) (default [] metadata))).
Proof.
  intros Hset.
  destruct (set_data_returns _ _ _ _ _ _ Hset) as (Hstored & Hdata & Hr & Hc).
  assert (Hhas : has_data dm' = true).
  { unfold has_data. rewrite Hdata, Hstored. unfold shape in *. simpl in *.
    rewrite List.length_map.
    apply andb_true_intro. split; apply Z.ltb_lt; assumption. }
  split; [exact Hhas|].
  revert Hset Hhas Hdata. unfold set_data, set_data_body.
  destruct (Z.eqb_spec (fst (shape df)) 0) as [|_]; [lia|].
  destruct (Z.eqb_spec (snd (shape df)) 0) as [|_]; [lia|].
  simpl orb. cbv iota.
  destruct (if existsb is_object (columns df) then _ else _) as [cols|e];
    simpl; [|discriminate].
  intros [= <- <-] _ _.
  unfold _create_anndata, has_data. simpl.
  destruct (_ && _) eqn:Hb; simpl.
  - destruct (anndata_raises lib _ _); reflexivity.
  - exfalso. apply andb_false_iff in Hb. rewrite !Z.ltb_ge in Hb.
    apply (f_equal columns) in Hstored. simpl in Hstored.
    apply (f_equal (@List.length column)) in Hstored.
    rewrite !List.length_map in Hstored. rewrite List.length_map in Hb.
    unfold shape in Hr, Hc. simpl in Hr, Hc. lia.
Qed.

Lemma set_data_derived_matrix_witness :
  adata (set_data Scenarios.plain_libs init (Frame Scenarios.small_frame)
           (Some [("organism"%string, Atom KStr "Homo" "'Homo'");
                  ("genes"%string, PyList [])])).1
  = Some (AnnDataOf
            {| index := ["s1"%string; "s2"%string];
               columns := [ {| name := "geneA"; col_dtype := numeric;
                               cells := [Num 0%Q; Num 0%Q] |};
                            {| name := "geneB"; col_dtype := numeric;
                               cells := [Num 1%Q; Num 2%Q] |} ] |}
            [("organism"%string, Atom KStr "Homo" "'Homo'")]).
Proof.
  destruct (set_data Scenarios.plain_libs init (Frame Scenarios.small_frame)
              (Some [("organism"%string, Atom KStr "Homo" "'Homo'");
                     ("genes"%string, PyList [])]))
    as [dm' [stored|e]] eqn:E; [|discriminate E].
  destruct (set_data_derived_matrix _ _ _ _ _ _ E) as [_ H].
  simpl fst. rewrite H. injection E as _ <-. reflexivity.
Defined.



(** ** The technical summary, continued *)

Lemma concat_empty_cons (x : string) (xs : list string) :
  String.concat "" (x :: xs) = (x ++ String.concat "" xs)%string.
Proof.
  destruct xs as [|y ys]; [symmetry; apply append_nil_r|reflexivity].
Qed.

Lemma concat_empty_app (l1 l2 : list string) :
  String.concat "" (l1 ++ l2)
  = (String.concat "" l1 ++ String.concat "" l2)%string.
Proof.
  induction l1 as [|x l1 IH]; [reflexivity|].
  simpl List.app. rewrite !concat_empty_cons, IH, append_assoc. reflexivity.
Qed.

Lemma enumerate_app {A} (l1 l2 : list A) (start : Z) :
  enumerate start (l1 ++ l2)
  = enumerate start l1 ++ enumerate (start + Z.of_nat (List.length l1)) l2.
Proof.
  revert start. induction l1 as [|x l1 IH]; intros start; simpl.
  - rewrite Z.add_0_r. reflexivity.
  - rewrite IH. do 3 f_equal. lia.
Qed.

Lemma tool_usage_section_nonempty (h : heap) (history : list tool_record) :
  history <> [] ->
  tool_usage_section h history
  = ("## Tool Usage History" ++ nl ++ nl
     ++ String.concat "" (List.map (render_tool_entry h)
                                   (enumerate 1 history)))%string.
Proof. destruct history; [congruence|reflexivity]. Qed.

Lemma tool_usage_section_snoc (h : heap) (history : list tool_record)
    (r : tool_record) :
  tool_usage_section h (history ++ [r])
  = (tool_usage_section h history
     ++ match history with
        | [] => "## Tool Usage History" ++ nl ++ nl
        | _ => ""
        end
     ++ render_tool_entry h (Z.of_nat (List.length history) + 1, r))%string.
Proof.
  destruct history as [|r0 hist]; [reflexivity|].
  rewrite (tool_usage_section_nonempty h ((r0 :: hist) ++ [r]))
    by (intros H; discriminate H).
  rewrite (tool_usage_section_nonempty h (r0 :: hist))
    by (intros H; discriminate H).
  rewrite enumerate_app, List.map_app, concat_empty_app, !append_assoc.
  do 3 f_equal.
  replace (1 + Z.of_nat (List.length (r0 :: hist)))
    with (Z.of_nat (List.length (r0 :: hist)) + 1) by lia.
  reflexivity.
Qed.

(** X21: logging a tool usage only adds to the end of the technical
    summary: the summary after [log_tool_usage] is the summary before it,
    followed by the heading of the tool-usage section when this is the
    first record, and by the rendering of the new record under the next
    number. *)
Theorem log_tool_usage_appends_to_summary
    (lib : libs) (h : heap) (dm : t) (tool_name : string) (l : loc)
    (description' : option string) (now : string) :
  get_technical_summary lib h
    (log_tool_usage dm tool_name l description' now)
  = (get_technical_summary lib h dm
     ++ match tool_usage_history dm with
        | [] => "## Tool Usage History" ++ nl ++ nl
        | _ => ""
        end
     ++ render_tool_entry h
          (Z.of_nat (List.length (tool_usage_history dm)) + 1,
           {| tool := tool_name; parameters := l;
              description := description'; tool_timestamp := now |}))%string.
Proof.
  unfold get_technical_summary, log_tool_usage.
  change (data_section lib (with_tool_usage_history ?x dm))
    with (data_section lib dm).
  change (processing_section (with_tool_usage_history ?x dm))
    with (processing_section dm).
  change (tool_usage_history (with_tool_usage_history ?x dm)) with x.
  rewrite tool_usage_section_snoc, !append_assoc. reflexivity.
Qed.

Example summary_grows_at_its_end :
  let h : heap :=
    {[ 1%positive := [("min_genes"%string, Atom KInt "200" "200")] ]} in
  let dm1 := log_tool_usage init "qc" 1%positive None "t1" in
  let dm2 := log_tool_usage dm1 "cluster" 1%positive None "t2" in
  get_technical_summary Scenarios.plain_libs h dm2
  = (get_technical_summary Scenarios.plain_libs h dm1
     ++ "### 2. cluster (t2)" ++ nl ++ nl ++ "**Parameters:**" ++ nl ++ nl
     ++ "- min_genes: 200" ++ nl ++ nl)%string.
Proof. vm_compute. reflexivity. Qed.

(** ** The export package, continued *)











(** ** Saving the dataset *)

Import Workspace.

Example suffixes :
  List.map suffix ["data.csv"; "data.CSV"; ".csv"; "a.tar.csv"; "dir.v1/data";
                   "out/.hidden.h5"]%string
  = [".csv"; ".CSV"; ""; ".csv"; ""; ".h5"]%string.
Proof. reflexivity. Qed.






Example save_data_to_workspace_metadata_beside :
  let dm := (set_data Scenarios.plain_libs init (Frame Scenarios.small_frame)
               (Some [("organism"%string, Atom KStr "Homo" "'Homo'")])).1 in
  let r := save_data_to_workspace (fun _ => false) dm "ws/data"
             (Some "runs/counts.v2.csv"%string) "20240101_000000" ∅ in
  r.2 = Some "ws/data/runs/counts.v2.csv"%string /\
  r.1 !! "ws/data/counts.v2_metadata.json"%string
  = Some (MetadataJson [("organism"%string, Atom KStr "Homo" "'Homo'")]).
Proof. vm_compute. split; reflexivity. Qed.
